(** * Device-pack resolution of the generic Cortex-M platform

    A shallow embedding of [builder/frameworks/cortex_m.py]: the script that
    locates the device pack of a board and wires its linker script, SVD file,
    header folders, startup file and system file into the build.

    The script runs against three collaborators, which are modelled first:
    - [pathlib] (pure paths, [exists], [glob], [resolve]), on a filesystem
      given as a tree of named entries, for a POSIX flavour;
    - the board manifest ([board.get] / [board.update]);
    - the SCons environment ([env.Replace], [env.Append], [env.BuildSources])
      and the two output streams.
    Then every function of the script follows, under the name it has in the
    source, and the top-level statements as [script]. *)

From Stdlib Require Import Ascii String.
From stdpp Require Import base option list strings gmap.

(** ** Strings *)

Module Str.

(** [s.split(sep)] for a one-character separator. *)
Fixpoint split_on (sep : ascii) (s : string) : list string :=
  match s with
  | EmptyString => [EmptyString]
  | String c s' =>
      if Ascii.eqb c sep then EmptyString :: split_on sep s'
      else match split_on sep s' with
           | [] => [String c EmptyString]
           | w :: ws => String c w :: ws
           end
  end.

(** [c in s] *)
Fixpoint contains (c : ascii) (s : string) : bool :=
  match s with
  | EmptyString => false
  | String d s' => Ascii.eqb c d || contains c s'
  end.

(** [sub in s] for the two-character string [c1 c2]. *)
Fixpoint contains2 (c1 c2 : ascii) (s : string) : bool :=
  match s with
  | String d ((String e _) as s') =>
      (Ascii.eqb c1 d && Ascii.eqb c2 e) || contains2 c1 c2 s'
  | _ => false
  end.

(** [s.startswith(pre)], with the rest of [s] when it does. *)
Fixpoint strip_prefix (pre s : string) : option string :=
  match pre, s with
  | EmptyString, _ => Some s
  | String a pre', String b s' =>
      if Ascii.eqb a b then strip_prefix pre' s' else None
  | String _ _, EmptyString => None
  end.

(** [s.removeprefix(pre)] *)
Definition removeprefix (pre s : string) : string :=
  default s (strip_prefix pre s).

(** [sep.join(l)] *)
Fixpoint join (sep : string) (l : list string) : string :=
  match l with
  | [] => ""
  | [x] => x
  | x :: l' => x +:+ sep +:+ join sep l'
  end.

End Str.

(** ** Pure paths

    A path is the list of its components below the root [/]: every path the
    script handles is absolute, as [get_project_dir] and
    [get_project_all_lib_dirs] return absolute directories. *)

Abbreviation Path := (list string).

Module PurePath.

(** The components of a path string: empty components and [.] vanish. *)
Definition parse_parts (s : string) : Path :=
  filter (λ c, c ≠ "" ∧ c ≠ ".") (Str.split_on "/" s).

Definition is_absolute (s : string) : bool :=
  match s with
  | String c _ => Ascii.eqb c "/"
  | EmptyString => false
  end.

(** [p / s]: an absolute right operand replaces the left one. *)
Definition joinpath (p : Path) (s : string) : Path :=
  if is_absolute s then parse_parts s else p ++ parse_parts s.

(** [p.name] *)
Definition name (p : Path) : string := List.last p "".

(** [p.as_posix()], which is [str(p)] for a POSIX path. *)
Definition as_posix (p : Path) : string :=
  "/" +:+ Str.join "/" p.

(** [repr(p)] and the [repr] of a list of paths, as an f-string prints
    them. *)
Definition repr (p : Path) : string := "PosixPath('" +:+ as_posix p +:+ "')".

Definition repr_list (l : list Path) : string :=
  "[" +:+ Str.join ", " (repr <$> l) +:+ "]".

End PurePath.

(** ** Shell-style matching of one name ([fnmatch]) *)

Module Fnmatch.

Inductive Token :=
| TStar
| TAny
| TClass (negated : bool) (stuff : list ascii)
| TLit (c : ascii).

(** The characters up to the next closing bracket, and what follows it. *)
Fixpoint until_close (s : string) : option (list ascii * string) :=
  match s with
  | EmptyString => None
  | String c s' =>
      if Ascii.eqb c "]" then Some ([], s')
      else match until_close s' with
           | Some (stuff, rest) => Some (c :: stuff, rest)
           | None => None
           end
  end.

(** The bracket expression that starts after an opening bracket: a leading
    [!] negates, a closing bracket in first place is a member. Without a
    closing bracket there is no expression and the opening bracket stands
    for itself. *)
Definition class_of (s : string) : option (bool * list ascii * string) :=
  let '(neg, s1) :=
    match s with
    | String c s' => if Ascii.eqb c "!" then (true, s') else (false, s)
    | EmptyString => (false, s)
    end in
  match s1 with
  | String c s2 =>
      if Ascii.eqb c "]" then
        match until_close s2 with
        | Some (stuff, rest) => Some (neg, c :: stuff, rest)
        | None => None
        end
      else
        match until_close s1 with
        | Some (stuff, rest) => Some (neg, stuff, rest)
        | None => None
        end
  | EmptyString => None
  end.

(** Membership in a bracket expression: [lo-hi] is a range. *)
Fixpoint in_class (c : ascii) (stuff : list ascii) : bool :=
  match stuff with
  | [] => false
  | lo :: rest =>
      match rest with
      | dash :: hi :: rest' =>
          if Ascii.eqb dash "-" then
            (Nat.leb (nat_of_ascii lo) (nat_of_ascii c)
             && Nat.leb (nat_of_ascii c) (nat_of_ascii hi))
            || in_class c rest'
          else Ascii.eqb c lo || in_class c rest
      | _ => Ascii.eqb c lo || in_class c rest
      end
  end.

(** The pattern read left to right; [skip] counts the characters already
    consumed by a bracket expression (the index jump of
    [fnmatch.translate]). *)
Fixpoint tokenize (skip : nat) (pat : string) : list Token :=
  match pat with
  | EmptyString => []
  | String c pat' =>
      match skip with
      | S k => tokenize k pat'
      | O =>
          if Ascii.eqb c "*" then TStar :: tokenize 0 pat'
          else if Ascii.eqb c "?" then TAny :: tokenize 0 pat'
          else if Ascii.eqb c "[" then
            match class_of pat' with
            | Some (neg, stuff, rest) =>
                TClass neg stuff
                  :: tokenize (String.length pat' - String.length rest) pat'
            | None => TLit c :: tokenize 0 pat'
            end
          else TLit c :: tokenize 0 pat'
      end
  end.

Fixpoint match_tokens (ts : list Token) (s : string) : bool :=
  match ts with
  | [] => bool_decide (s = "")
  | TStar :: ts' =>
      (fix star (s : string) : bool :=
         match_tokens ts' s
         || match s with
            | EmptyString => false
            | String _ s' => star s'
            end) s
  | TAny :: ts' =>
      match s with
      | String _ s' => match_tokens ts' s'
      | EmptyString => false
      end
  | TClass neg stuff :: ts' =>
      match s with
      | String c s' => xorb neg (in_class c stuff) && match_tokens ts' s'
      | EmptyString => false
      end
  | TLit c :: ts' =>
      match s with
      | String d s' => Ascii.eqb c d && match_tokens ts' s'
      | EmptyString => false
      end
  end.

(** [fnmatch.fnmatchcase(name, pat)]: the whole name has to match. *)
Definition fnmatch (pat name : string) : bool :=
  match_tokens (tokenize 0 pat) name.

End Fnmatch.

(** ** Exceptions and outcomes *)

Inductive Exception :=
| AssertionError (msg : string)
| ValueError (msg : string)
| NotImplementedError (msg : string)
| IndexError (msg : string).

Inductive Outcome (A : Type) :=
| Returns (a : A)
| Raises (e : Exception).
Arguments Returns {A} a.
Arguments Raises {A} e.

#[global] Instance Outcome_ret : MRet Outcome := λ A a, Returns a.
#[global] Instance Outcome_bind : MBind Outcome := λ A B f m,
  match m with
  | Returns a => f a
  | Raises e => Raises e
  end.

(** ** The filesystem

    A directory lists its entries in the order [os.scandir] reports them. The
    tree is the filesystem as [stat] sees it, symbolic links followed; what
    [Path.resolve] makes of a path is left to the world the script runs in.
    A lookup answers as it does when the operating system reports nothing but
    a missing entry: the [OSError] that [Path.exists] lets through for a name
    longer than the system allows is outside the model. *)

#[warnings="-register-all"]
Inductive Node :=
| File
| Dir (entries : list (string * Node)).

Module FS.

Definition node_is_dir (n : Node) : bool :=
  match n with
  | Dir _ => true
  | File => false
  end.

Fixpoint assoc (nm : string) (es : list (string * Node)) : option Node :=
  match es with
  | [] => None
  | (k, n) :: es' => if decide (k = nm) then Some n else assoc nm es'
  end.

(** The node at a path without [..] components. *)
Fixpoint node_at (n : Node) (p : Path) : option Node :=
  match p with
  | [] => Some n
  | c :: p' =>
      match n with
      | Dir es =>
          match assoc c es with
          | Some n' => node_at n' p'
          | None => None
          end
      | File => None
      end
  end.

(** Walks [parts] from the directory [cur]; [..] steps to the parent, and
    the parent of the root is the root. *)
Fixpoint walk (fs : Node) (cur : Path) (parts : Path) : option Path :=
  match parts with
  | [] =>
      match node_at fs cur with
      | Some _ => Some cur
      | None => None
      end
  | c :: rest =>
      match node_at fs cur with
      | Some (Dir _) =>
          walk fs (if decide (c = "..") then removelast cur else cur ++ [c]) rest
      | _ => None
      end
  end.

Definition stat (fs : Node) (p : Path) : option Node :=
  cur ← walk fs [] p; node_at fs cur.

(** [p.exists()] and [p.is_dir()] *)
Definition exists_ (fs : Node) (p : Path) : bool :=
  match stat fs p with
  | Some _ => true
  | None => false
  end.

Definition is_dir (fs : Node) (p : Path) : bool :=
  match stat fs p with
  | Some n => node_is_dir n
  | None => false
  end.

Definition scandir (fs : Node) (p : Path) : list (string * Node) :=
  match stat fs p with
  | Some (Dir es) => es
  | _ => []
  end.

(** *** [Path.glob], as pathlib of Python 3.9 to 3.11 selects *)

Definition is_wildcard_pattern (pat : string) : bool :=
  Str.contains "*" pat || Str.contains "?" pat || Str.contains "[" pat.

(** The directories below a directory, itself first (the walk of the
    recursive wildcard). *)
Fixpoint iterate_directories (n : Node) (here : Path) : list Path :=
  here ::
    match n with
    | File => []
    | Dir es =>
        (fix entries (es : list (string * Node)) : list Path :=
           match es with
           | [] => []
           | (nm, c) :: es' =>
               match c with
               | Dir _ => iterate_directories c (here ++ [nm]) ++ entries es'
               | File => entries es'
               end
           end) es
    end.

(** Keeps the first occurrence of every path. *)
Fixpoint first_seen (seen : list Path) (l : list Path) : list Path :=
  match l with
  | [] => []
  | p :: l' =>
      if decide (p ∈ seen) then first_seen seen l'
      else p :: first_seen (p :: seen) l'
  end.

(** The selectors a pattern is compiled to, applied to [parent]: a
    component without wildcard is looked up, one with wildcards is matched
    against the entries of the directory, [**] walks the directories below;
    a component that has successors selects directories only. *)
Fixpoint select_from (fs : Node) (parts : list string) (parent : Path)
  : list Path :=
  match parts with
  | [] => [parent]
  | pat :: rest =>
      let dironly := negb (bool_decide (rest = [])) in
      if decide (pat = "**") then
        first_seen []
          (flat_map (select_from fs rest)
             (match stat fs parent with
              | Some n => iterate_directories n parent
              | None => []
              end))
      else if is_wildcard_pattern pat then
        flat_map
          (λ e : string * Node,
             if (negb dironly || node_is_dir e.2) && Fnmatch.fnmatch pat e.1
             then select_from fs rest (parent ++ [e.1])
             else [])
          (scandir fs parent)
      else
        let path := parent ++ [pat] in
        if (if dironly then is_dir fs path else exists_ fs path)
        then select_from fs rest path
        else []
  end.

(** [self.glob(pattern)]: an empty pattern and a pattern with a root are
    refused, as is [**] inside a component. *)
Definition glob (fs : Node) (self : Path) (pattern : string)
  : Outcome (list Path) :=
  if decide (pattern = "") then
    Raises (ValueError "Unacceptable pattern: ''")
  else if PurePath.is_absolute pattern then
    Raises (NotImplementedError "Non-relative patterns are unsupported")
  else
    match PurePath.parse_parts pattern with
    | [] => Raises (IndexError "tuple index out of range")
    | parts =>
        if existsb (λ pat, bool_decide (pat ≠ "**") && Str.contains2 "*" "*" pat)
             parts
        then Raises (ValueError
               "Invalid pattern: '**' can only be an entire path component")
        else Returns (if is_dir fs self then select_from fs parts self else [])
    end.

End FS.

(** ** The board manifest

    [board.get(key, default)] reads a dotted key of the manifest and gives
    [default] when the key is absent; [board.update(key, value)] overrides it
    in memory. The manifest is typed by its schema: names are strings, the
    two [use_device_pack_*] options are booleans, [device_include] and
    [frameworks] are lists of strings. *)

Record Board := {
  strs : gmap string string;
  flags : gmap string bool;
  lists : gmap string (list string)
}.

Definition update_str (key value : string) (b : Board) : Board :=
  {| strs := <[key := value]> (strs b); flags := flags b; lists := lists b |}.

Definition update_list (key : string) (value : list string) (b : Board) : Board :=
  {| strs := strs b; flags := flags b; lists := <[key := value]> (lists b) |}.

(** ** The build environment and the state of a run *)

Record Env := {
  LDSCRIPT_PATH : option string;
  CPPPATH : list Path;
  LINKFLAGS : list string;
  (** the calls of [env.BuildSources]: variant directory, source directory,
      source filter *)
  BUILD_SOURCES : list (string * string * list string)
}.

Inductive Output :=
| Stdout (line : string)
| Stderr (text : string)
| Verbose (text : string).

Record State := {
  board : Board;
  env : Env;
  out : list Output
}.

Definition with_board (f : Board → Board) (st : State) : State :=
  {| board := f (board st); env := env st; out := out st |}.

Definition with_env (f : Env → Env) (st : State) : State :=
  {| board := board st; env := f (env st); out := out st |}.

Definition emit (o : Output) (st : State) : State :=
  {| board := board st; env := env st; out := out st ++ [o] |}.

(** ** The monad of the script: a state, and an exception that ends the run *)

Definition M (A : Type) : Type := State → Outcome A * State.

#[global] Instance M_ret : MRet M := λ A a st, (Returns a, st).
#[global] Instance M_bind : MBind M := λ A B f m st,
  match m st with
  | (Returns a, st') => f a st'
  | (Raises e, st') => (Raises e, st')
  end.

Definition raise {A} (e : Exception) : M A := λ st, (Raises e, st).
Definition lift {A} (o : Outcome A) : M A := λ st, (o, st).
Definition get_board : M Board := λ st, (Returns (board st), st).
Definition modify (f : State → State) : M unit := λ st, (Returns tt, f st).

Definition print (line : string) : M unit := modify (emit (Stdout line)).
Definition stderr_write (text : string) : M unit := modify (emit (Stderr text)).
Definition VerboseAction (text : string) : M unit := modify (emit (Verbose text)).

(** [assert cond, msg] *)
Definition assert (cond : bool) (msg : string) : M unit :=
  if cond then mret tt else raise (AssertionError msg).

Definition board_update_str (key value : string) : M unit :=
  modify (with_board (update_str key value)).
Definition board_update_list (key : string) (value : list string) : M unit :=
  modify (with_board (update_list key value)).

Definition Replace_LDSCRIPT_PATH (v : string) : M unit :=
  modify (with_env (λ e,
    {| LDSCRIPT_PATH := Some v; CPPPATH := CPPPATH e;
       LINKFLAGS := LINKFLAGS e; BUILD_SOURCES := BUILD_SOURCES e |})).
Definition Append_CPPPATH (l : list Path) : M unit :=
  modify (with_env (λ e,
    {| LDSCRIPT_PATH := LDSCRIPT_PATH e; CPPPATH := CPPPATH e ++ l;
       LINKFLAGS := LINKFLAGS e; BUILD_SOURCES := BUILD_SOURCES e |})).
Definition Append_LINKFLAGS (l : list string) : M unit :=
  modify (with_env (λ e,
    {| LDSCRIPT_PATH := LDSCRIPT_PATH e; CPPPATH := CPPPATH e;
       LINKFLAGS := LINKFLAGS e ++ l; BUILD_SOURCES := BUILD_SOURCES e |})).
Definition BuildSources (variant_dir src_dir : string) (src_filter : list string)
  : M unit :=
  modify (with_env (λ e,
    {| LDSCRIPT_PATH := LDSCRIPT_PATH e; CPPPATH := CPPPATH e;
       LINKFLAGS := LINKFLAGS e;
       BUILD_SOURCES := BUILD_SOURCES e ++ [(variant_dir, src_dir, src_filter)] |})).

(** ** The world of one run *)

Record World := {
  fs : Node;
  (** [Path.resolve] *)
  resolve : Path → Path;
  (** [get_project_dir()] *)
  project_dir : Path;
  (** [get_project_all_lib_dirs()] *)
  project_all_lib_dirs : list Path;
  (** [env.BoardConfig()], the manifest as the run finds it *)
  manifest : Board
}.

(** ** The script *)

Section Script.

Variable w : World.

(** The module-level names, bound once when the script starts. *)
Definition mcu : string := default "" (strs (manifest w) !! "build.mcu").
Definition product_line : string :=
  default "" (strs (manifest w) !! "build.product_line").

Definition project_path : Path := project_dir w.
Definition project_misc : Path := PurePath.joinpath project_path "misc".
Definition project_src : Path := PurePath.joinpath project_path "src".
Definition lib_path_list : list Path := project_all_lib_dirs w.

Definition do_not_support_any_framework : M unit :=
  board_update_list "frameworks" [].

Definition two_layer_glob (folder : Path) (name : string)
  : Outcome (list Path) :=
  direct ← FS.glob (fs w) folder name;
  nested ← FS.glob (fs w) folder ("*/" +:+ name);
  mret (direct ++ nested).

(** The lambda [find_pack] of [find_device_pack_path]: the chain of
    [p.glob(name)] over the library directories. *)
Definition find_pack (name : string) : Outcome (list Path) :=
  (fix chain (roots : list Path) : Outcome (list Path) :=
     match roots with
     | [] => mret []
     | p :: roots' =>
         here ← FS.glob (fs w) p name;
         there ← chain roots';
         mret (here ++ there)
     end) lib_path_list.

(** The local [product_line_pack_name] of [find_device_pack_path]. *)
Definition product_line_pack_name : string := "device_path_" +:+ product_line.

Definition find_device_pack_path : M (option Path) :=
  b ← get_board;
  let board_pack_name := strs b !! "device_pack" in
  let by_product_line : M (option Path) :=
    product_line_name_pack_list ← lift (find_pack product_line_pack_name);
    let list_len := length product_line_name_pack_list in
    assert (bool_decide (list_len < 2))
      ("Found more than one device pack [ " +:+ product_line_pack_name +:+ " ].");;
    if bool_decide (list_len = 0) then
      print ("?-> Device pack [ " +:+ product_line_pack_name +:+ " ] not found.");;
      mret None
    else mret (head product_line_name_pack_list) in
  match board_pack_name with
  | Some board_pack_name =>
      board_pack_name_list ← lift (find_pack board_pack_name);
      let list_len := length board_pack_name_list in
      assert (bool_decide (list_len ≤ 0))
        ("Found more than one device pack [ " +:+ board_pack_name +:+ " ].");;
      if bool_decide (length board_pack_name_list = 1)
      then mret (head board_pack_name_list)
      else by_product_line
  | None => by_product_line
  end.

Definition find_header_path_in_device_pack (pack_dir : Path) : M (list Path) :=
  b ← get_board;
  let include_list := default [] (lists b !! "device_include") in
  if bool_decide (length include_list = 0) then mret []
  else mret ((λ p, PurePath.joinpath pack_dir p) <$> include_list).

(** The local [svd_name] of [find_svd_file_path]. *)
Definition svd_name (b : Board) : string :=
  match strs b !! "debug.svd_name" with
  | Some n => n
  | None =>
      match strs b !! "debug.svd_path" with
      | Some n => n
      | None => product_line +:+ ".svd"
      end
  end.

Definition find_svd_file_path (pack_dir : option Path) : M (option Path) :=
  b ← get_board;
  let svd_name := svd_name b in
  let svd_in_misc := PurePath.joinpath project_misc svd_name in
  if FS.exists_ (fs w) svd_in_misc then mret (Some svd_in_misc)
  else
    match pack_dir with
    | None => mret None
    | Some pack_dir =>
        all_svd ← lift (two_layer_glob pack_dir "SVD/*.svd");
        let target_svd := filter (λ f, PurePath.name f = svd_name) all_svd in
        if bool_decide (length target_svd = 1) then mret (head target_svd)
        else mret None
    end.

(** The local [ld_name] of [find_ldscript_file_path]. *)
Definition ld_name (b : Board) : string :=
  match strs b !! "build.ldscript" with
  | Some n => n
  | None => product_line +:+ ".ld"
  end.

Definition find_ldscript_file_path (pack_dir : option Path) : M (option Path) :=
  b ← get_board;
  let ld_name := ld_name b in
  let ld_in_misc := PurePath.joinpath project_misc ld_name in
  if FS.exists_ (fs w) ld_in_misc then mret (Some ld_in_misc)
  else
    match pack_dir with
    | None => mret None
    | Some pack_dir =>
        all_ld ← lift (two_layer_glob pack_dir "Ldscript/*.ld");
        let target_ld := filter (λ f, PurePath.name f = ld_name) all_ld in
        if bool_decide (length target_ld = 1) then mret (head target_ld)
        else mret None
    end.

Definition find_source_file_in_device_pack
    (pack_dir : Path) (parent file_name : string) : M (option Path) :=
  result ← lift (two_layer_glob pack_dir (parent +:+ "/" +:+ file_name));
  let result_len := length result in
  if bool_decide (result_len = 0) then mret None
  else if bool_decide (result_len = 1) then
    print ("--> Found source file " +:+ file_name +:+ " in device pack.");;
    mret (head result)
  else
    stderr_write ("!-> Found multiple file " +:+ file_name
                  +:+ " in device pack. Discard.");;
    mret None.

Definition find_source_file_in_src (file_name : string) : M bool :=
  result ← lift (two_layer_glob project_src file_name);
  let result_len := length result in
  if bool_decide (0 < result_len) then mret true
  else
    print ("--> No file " +:+ file_name +:+ " in src.");;
    mret false.

Definition get_startup_file_name (b : Board) : string :=
  let file_name := "startup_" +:+ product_line +:+ ".[sS]" in
  default file_name (strs b !! "build.startup_file").

Definition get_system_file_name (b : Board) : string :=
  let file_name := "system_" +:+ product_line +:+ ".c" in
  default file_name (strs b !! "build.system_file").

(** [pack] is the module-level name the script binds to the result of
    [find_device_pack_path]. *)
Definition get_relative_path_to_device_pack
    (pack : option Path) (file_path : Path) : M string :=
  match pack with
  | None => raise (AssertionError "")
  | Some pack =>
      mret (Str.removeprefix
              (PurePath.as_posix (resolve w pack) +:+ "/")
              (PurePath.as_posix (resolve w file_path)))
  end.

Definition build_source_file_in_device_pack
    (pack : option Path) (file_path : Path) : M unit :=
  match pack with
  | None => raise (AssertionError "")
  | Some pack_dir =>
      relative_path ← get_relative_path_to_device_pack pack file_path;
      BuildSources
        "$BUILD_DIR/SourceInDevicePack"
        (PurePath.as_posix (resolve w pack_dir))
        ["-<*>"; "+<" +:+ relative_path +:+ ">"]
  end.

(** *** The top-level statements, block by block *)

(** [pack = find_device_pack_path()] with its two log lines. *)
Definition locate_pack : M (option Path) :=
  VerboseAction ("--> Finding device pack in: "
                 +:+ PurePath.repr_list lib_path_list);;
  pack ← find_device_pack_path;
  match pack with
  | Some p =>
      VerboseAction ("--> Device pack selected: " +:+ PurePath.as_posix p)
  | None => mret tt
  end;;
  mret pack.

(** The linker script: without one the build cannot go on. *)
Definition set_ldscript (pack : option Path) : M unit :=
  ld_path ← find_ldscript_file_path pack;
  match ld_path with
  | None =>
      stderr_write "!-> Ldscript file not found.";;
      raise (ValueError "No ldscript file or wrong naming.")
  | Some ld_path =>
      Replace_LDSCRIPT_PATH (PurePath.as_posix (resolve w ld_path))
  end.

(** The SVD file: overrides [debug.svd_path] of the board. *)
Definition set_svd_path (pack : option Path) : M unit :=
  svd_path ← find_svd_file_path pack;
  match svd_path with
  | None => stderr_write "!-> SVD file not found. Debug feature may not work."
  | Some svd_path =>
      board_update_str "debug.svd_path" (PurePath.as_posix (resolve w svd_path))
  end.

(** The header folders of the device pack. *)
Definition add_header_path (pack : option Path) : M unit :=
  match pack with
  | Some pack =>
      header_path_list ← find_header_path_in_device_pack pack;
      if bool_decide (0 < length header_path_list)
      then Append_CPPPATH header_path_list
      else mret tt
  | None => mret tt
  end.

(** The startup file; the result is the module-level [startup_path]. *)
Definition find_startup (pack : option Path) : M (option Path) :=
  b ← get_board;
  let startup_name := get_startup_file_name b in
  is_startup_in_src ← find_source_file_in_src startup_name;
  if negb is_startup_in_src then
    b ← get_board;
    match default false (flags b !! "build.use_device_pack_startup"), pack with
    | true, Some pack =>
        find_source_file_in_device_pack pack "Startup" startup_name
    | _, _ =>
        stderr_write "!-> Startup file not found. Ignore this if it's ok.";;
        mret None
    end
  else mret None.

(** The system file; the result is the module-level [system_path]. *)
Definition find_system (pack : option Path) : M (option Path) :=
  b ← get_board;
  let system_name := get_system_file_name b in
  is_system_in_src ← find_source_file_in_src system_name;
  if negb is_system_in_src then
    b ← get_board;
    match default false (flags b !! "build.use_device_pack_system"), pack with
    | true, Some pack =>
        find_source_file_in_device_pack pack "SystemSource" system_name
    | _, _ =>
        stderr_write "!-> System file not found. Ignore this if it's ok.";;
        mret None
    end
  else mret None.

(** [if path is not None: build_source_file_in_device_pack(path)] *)
Definition build_if_found (pack path : option Path) : M unit :=
  match path with
  | Some file_path => build_source_file_in_device_pack pack file_path
  | None => mret tt
  end.

Definition script : M unit :=
  assert (bool_decide (product_line ≠ "")) "Missing MCU or Product Line field";;
  do_not_support_any_framework;;
  pack ← locate_pack;
  set_ldscript pack;;
  set_svd_path pack;;
  add_header_path pack;;
  Append_LINKFLAGS ["--specs=nano.specs"; "--specs=nosys.specs"];;
  startup_path ← find_startup pack;
  system_path ← find_system pack;
  build_if_found pack startup_path;;
  build_if_found pack system_path.

(** A run starts from the manifest and the environment [_bare.py] leaves. *)
Definition initial_state (env0 : Env) : State :=
  {| board := manifest w; env := env0; out := [] |}.

Definition run (env0 : Env) : Outcome unit * State :=
  script (initial_state env0).

End Script.

(** ** What a lookup inside the pack counts as its matches

    The files of the two-layer glob of [pattern] below the pack whose name is
    [name]: the [target_ld] and [target_svd] of the two finders. Without a
    pack there is none. *)

Definition matches_in_pack (w : World) (pack : option Path)
    (pattern name : string) : list Path :=
  match pack with
  | Some pack_dir =>
      match two_layer_glob w pack_dir pattern with
      | Returns all => filter (λ f, PurePath.name f = name) all
      | Raises _ => []
      end
  | None => []
  end.

(** What a finder returns from the file in [misc] and the matches in the
    pack: the file in [misc] when it exists, else the only match, else
    nothing. *)
Definition pick (tree : Node) (in_misc : Path) (in_pack : list Path)
  : option Path :=
  if FS.exists_ tree in_misc then Some in_misc
  else match in_pack with
       | [p] => Some p
       | _ => None
       end.

(** A name that is one literal path component: not empty, not [.], without
    separator and without wildcard. *)
Definition plain_name (name : string) : bool :=
  bool_decide (name ≠ "") && bool_decide (name ≠ ".")
  && negb (Str.contains "/" name) && negb (FS.is_wildcard_pattern name).

(** ** Frames

    A computation preserves a projection of the state when the state it
    leaves, whether it returns or raises, projects as the state it found. *)

Definition preserves {X A : Type} (proj : State → X) (m : M A) : Prop :=
  ∀ st, proj (m st).2 = proj st.

Definition ldscript_path (st : State) : option string := LDSCRIPT_PATH (env st).

(** What follows the linker script in the script, and what follows the SVD
    file. *)
Definition after_svd (w : World) (pack : option Path) : M unit :=
  add_header_path pack;;
  Append_LINKFLAGS ["--specs=nano.specs"; "--specs=nosys.specs"];;
  startup_path ← find_startup w pack;
  system_path ← find_system w pack;
  build_if_found w pack startup_path;;
  build_if_found w pack system_path.

Definition after_ldscript (w : World) (pack : option Path) : M unit :=
  set_svd_path w pack;;
  after_svd w pack.

(** ** The script after its first statements, and what it registers *)

(** The script from the search for the pack on. *)
Definition from_pack (w : World) : M unit :=
  pack ← locate_pack w;
  set_ldscript w pack;;
  after_ldscript w pack.

(** The script after the two link flags. *)
Definition after_linkflags (w : World) (pack : option Path) : M unit :=
  startup_path ← find_startup w pack;
  system_path ← find_system w pack;
  build_if_found w pack startup_path;;
  build_if_found w pack system_path.

(** The script up to the two lookups of sources: it returns the pack. *)
Definition until_sources (w : World) : M (option Path) :=
  assert (bool_decide (product_line w ≠ "")) "Missing MCU or Product Line field";;
  do_not_support_any_framework;;
  pack ← locate_pack w;
  set_ldscript w pack;;
  set_svd_path w pack;;
  add_header_path pack;;
  Append_LINKFLAGS ["--specs=nano.specs"; "--specs=nosys.specs"];;
  mret pack.

(** The call of [BuildSources] that [build_source_file_in_device_pack] makes
    for a file of the pack [pack_dir]. *)
Definition pack_source_call (w : World) (pack_dir file_path : Path)
  : string * string * list string :=
  ("$BUILD_DIR/SourceInDevicePack",
   PurePath.as_posix (resolve w pack_dir),
   ["-<*>";
    "+<" +:+ Str.removeprefix (PurePath.as_posix (resolve w pack_dir) +:+ "/")
               (PurePath.as_posix (resolve w file_path)) +:+ ">"]).

(** A call of [BuildSources] as [build_source_file_in_device_pack] makes it:
    into the variant directory of the pack sources, from a resolved
    directory, everything excluded but one path. *)
Definition pack_source_entry (w : World) (e : string * string * list string)
  : Prop :=
  e.1.1 = "$BUILD_DIR/SourceInDevicePack"
  ∧ (∃ d, e.1.2 = PurePath.as_posix (resolve w d))
  ∧ (∃ r, e.2 = ["-<*>"; "+<" +:+ r +:+ ">"]).

(** A computation that adds at most [n] such calls and no other. *)
Definition registers (w : World) (n : nat) {A : Type} (m : M A) : Prop :=
  ∀ st, ∃ l,
    BUILD_SOURCES (env (m st).2) = BUILD_SOURCES (env st) ++ l
    ∧ length l ≤ n
    ∧ Forall (pack_source_entry w) l.

(** A component as a resolved path has them: not empty, not [.], without
    separator. *)
Definition path_component (c : string) : Prop :=
  c ≠ "" ∧ c ≠ "." ∧ Str.contains "/" c = false.

(** ** Sample worlds

    The product line [HK32F030M] in a project at [/proj] with one library
    directory [/proj/lib]. *)

Module Sample.

Definition env0 : Env :=
  {| LDSCRIPT_PATH := None; CPPPATH := []; LINKFLAGS := []; BUILD_SOURCES := [] |}.

(** A manifest that names the product line and nothing else. *)
Definition board_plain : Board :=
  {| strs := {["build.product_line" := "HK32F030M"]}; flags := ∅; lists := ∅ |}.

(** The same, with both pack lookups of sources allowed and two header
    folders. *)
Definition board_pack : Board :=
  {| strs := {["build.product_line" := "HK32F030M"]};
     flags := <["build.use_device_pack_startup" := true]>
                {["build.use_device_pack_system" := true]};
     lists := {["device_include" := ["Include"; "CMSIS/Core"]]} |}.

(** The same as [board_plain], with an explicit pack name. *)
Definition board_named : Board := update_str "device_pack" "mypack" board_plain.

Definition lib : Path := ["proj"; "lib"].
Definition pack_dir : Path := ["proj"; "lib"; "device_path_HK32F030M"].

(** A pack with one linker script, two SVD files of the board's name (one
    directly in [SVD], one a folder deeper), one startup file and no system
    file. *)
Definition pack_tree : Node :=
  Dir [("Ldscript", Dir [("HK32F030M.ld", File); ("other.ld", File)]);
       ("SVD", Dir [("HK32F030M.svd", File)]);
       ("v2", Dir [("SVD", Dir [("HK32F030M.svd", File)])]);
       ("Startup", Dir [("startup_HK32F030M.S", File)]);
       ("SystemSource", Dir [])].

(** A pack in which every lookup finds two files. *)
Definition twofold_tree : Node :=
  Dir [("Ldscript", Dir [("HK32F030M.ld", File)]);
       ("SVD", Dir [("HK32F030M.svd", File)]);
       ("Startup", Dir [("startup_HK32F030M.s", File)]);
       ("SystemSource", Dir [("system_HK32F030M.c", File)]);
       ("v2", Dir [("Ldscript", Dir [("HK32F030M.ld", File)]);
                   ("SVD", Dir [("HK32F030M.svd", File)]);
                   ("Startup", Dir [("startup_HK32F030M.s", File)]);
                   ("SystemSource", Dir [("system_HK32F030M.c", File)])])].

Definition project (libs misc src : list (string * Node)) : Node :=
  Dir [("proj", Dir [("lib", Dir libs); ("misc", Dir misc); ("src", Dir src)])].

Definition world (tree : Node) (b : Board) : World :=
  {| fs := tree; resolve := id; project_dir := ["proj"];
     project_all_lib_dirs := [lib]; manifest := b |}.

(** No pack and nothing in [misc]. *)
Definition bare : World :=
  world (project [] [] [("main.c", File)]) board_plain.

(** The pack of [pack_tree], nothing in [misc], no startup or system file
    in [src]. *)
Definition packed : World :=
  world (project [("device_path_HK32F030M", pack_tree)] [] [("main.c", File)])
    board_pack.

Definition twofold : World :=
  world (project [("device_path_HK32F030M", twofold_tree)] [] [("main.c", File)])
    board_pack.

(** Every file both in the project and in the pack. *)
Definition shadowed : World :=
  world (project [("device_path_HK32F030M", twofold_tree)]
           [("HK32F030M.ld", File); ("HK32F030M.svd", File)]
           [("main.c", File); ("startup_HK32F030M.s", File);
            ("bsp", Dir [("system_HK32F030M.c", File)])])
    board_pack.

(** The pack [mypack], named by the board, directly in the library
    directory. *)
Definition named : World :=
  world (project [("mypack", pack_tree)] [] []) board_named.

(** The packs one folder below the library directory. *)
Definition nested : World :=
  world (project [("vendor", Dir [("mypack", pack_tree);
                                  ("device_path_HK32F030M", pack_tree);
                                  ("device_pack_HK32F030M", pack_tree)])] [] [])
    board_named.

(** The pack [mypack], named by the board, in each of two library
    directories. *)
Definition twice : World :=
  {| fs := Dir [("proj", Dir [("lib", Dir [("mypack", pack_tree)]);
                              ("deps", Dir [("mypack", pack_tree)]);
                              ("misc", Dir []); ("src", Dir [])])];
     resolve := id; project_dir := ["proj"];
     project_all_lib_dirs := [lib; ["proj"; "deps"]];
     manifest := board_named |}.

(** A manifest without a product line. *)
Definition nameless : World :=
  world (project [("device_path_HK32F030M", pack_tree)] [] [])
    {| strs := ∅; flags := ∅; lists := ∅ |}.

(** The pack of [pack_tree] under a manifest that does not allow it for the
    startup and system files. *)
Definition gated : World :=
  world (project [("device_path_HK32F030M", pack_tree)] [] [("main.c", File)])
    board_plain.

(** A pack with one system file, a directory below the pack. *)
Definition lone : World :=
  world (project [("device_path_HK32F030M",
                   Dir [("v2", Dir [("SystemSource",
                                     Dir [("system_HK32F030M.c", File)])])])]
           [] [])
    board_pack.

End Sample.

(** * Properties *)

(** ** The monad and the glob *)

Lemma bind_unfold {A B} (m : M A) (f : A → M B) (st : State) :
  (m ≫= f) st
  = match m st with
    | (Returns a, st') => f a st'
    | (Raises e, st') => (Raises e, st')
    end.
Proof. reflexivity. Qed.

Lemma glob_returns (tree : Node) (d : Path) (pattern : string) :
  pattern ≠ "" →
  PurePath.is_absolute pattern = false →
  PurePath.parse_parts pattern ≠ [] →
  existsb (λ pat, bool_decide (pat ≠ "**") && Str.contains2 "*" "*" pat)
    (PurePath.parse_parts pattern) = false →
  FS.glob tree d pattern
  = Returns (if FS.is_dir tree d
             then FS.select_from tree (PurePath.parse_parts pattern) d
             else []).
Proof.
  intros Hne Habs Hparts Hstar. unfold FS.glob.
  destruct (decide (pattern = "")) as [?|_]; [done|].
  rewrite Habs.
  destruct (PurePath.parse_parts pattern) as [|pat parts]; [done|].
  by rewrite Hstar.
Qed.

(** The two constant patterns of the finders are accepted by [glob]: the
    lookups for the linker script and the SVD file never raise. *)
Lemma two_layer_glob_ld (w : World) (d : Path) :
  ∃ all, two_layer_glob w d "Ldscript/*.ld" = Returns all.
Proof.
  unfold two_layer_glob. rewrite !glob_returns by done. by eexists.
Qed.

Lemma two_layer_glob_svd (w : World) (d : Path) :
  ∃ all, two_layer_glob w d "SVD/*.svd" = Returns all.
Proof.
  unfold two_layer_glob. rewrite !glob_returns by done. by eexists.
Qed.

Lemma matches_in_pack_glob (w : World) (d : Path) (pattern name : string) all :
  two_layer_glob w d pattern = Returns all →
  matches_in_pack w (Some d) pattern name
  = filter (λ f, PurePath.name f = name) all.
Proof. intros H. unfold matches_in_pack. by rewrite H. Qed.


(** ** The two finders of [misc] and pack, in closed form *)

Lemma pick_length_one {A} (l : list A) :
  (if bool_decide (length l = 1) then head l else None)
  = match l with [p] => Some p | _ => None end.
Proof. by destruct l as [|x [|y l]]. Qed.

Lemma find_ldscript_file_path_pick (w : World) (pack : option Path) (st : State) :
  find_ldscript_file_path w pack st
  = (Returns (pick (fs w)
                (PurePath.joinpath (project_misc w) (ld_name w (board st)))
                (matches_in_pack w pack "Ldscript/*.ld" (ld_name w (board st)))),
     st).
Proof.
  unfold find_ldscript_file_path, pick. rewrite bind_unfold. cbn [get_board].
  destruct (FS.exists_ _ _); [done|].
  destruct pack as [d|]; [|done].
  destruct (two_layer_glob_ld w d) as [all Hall].
  rewrite (matches_in_pack_glob _ _ _ _ _ Hall), bind_unfold.
  unfold lift. rewrite Hall.
  rewrite <- pick_length_one. by case_bool_decide.
Qed.

Lemma find_svd_file_path_pick (w : World) (pack : option Path) (st : State) :
  find_svd_file_path w pack st
  = (Returns (pick (fs w)
                (PurePath.joinpath (project_misc w) (svd_name w (board st)))
                (matches_in_pack w pack "SVD/*.svd" (svd_name w (board st)))),
     st).
Proof.
  unfold find_svd_file_path, pick. rewrite bind_unfold. cbn [get_board].
  destruct (FS.exists_ _ _); [done|].
  destruct pack as [d|]; [|done].
  destruct (two_layer_glob_svd w d) as [all Hall].
  rewrite (matches_in_pack_glob _ _ _ _ _ Hall), bind_unfold.
  unfold lift. rewrite Hall.
  rewrite <- pick_length_one. by case_bool_decide.
Qed.

Lemma pick_ambiguous (tree : Node) (in_misc : Path) (in_pack : list Path) :
  FS.exists_ tree in_misc = false → 2 ≤ length in_pack →
  pick tree in_misc in_pack = None.
Proof.
  intros Hmisc Hlen. unfold pick. rewrite Hmisc.
  destruct in_pack as [|x [|y l]]; simpl in *; [lia|lia|done].
Qed.

Lemma set_ldscript_pick (w : World) (pack : option Path) (st : State) :
  set_ldscript w pack st
  = match pick (fs w)
            (PurePath.joinpath (project_misc w) (ld_name w (board st)))
            (matches_in_pack w pack "Ldscript/*.ld" (ld_name w (board st))) with
    | None => (Raises (ValueError "No ldscript file or wrong naming."),
               emit (Stderr "!-> Ldscript file not found.") st)
    | Some p => Replace_LDSCRIPT_PATH (PurePath.as_posix (resolve w p)) st
    end.
Proof.
  unfold set_ldscript. rewrite bind_unfold, find_ldscript_file_path_pick.
  by destruct (pick _ _ _).
Qed.

Lemma set_svd_path_pick (w : World) (pack : option Path) (st : State) :
  set_svd_path w pack st
  = (Returns tt,
     match pick (fs w)
             (PurePath.joinpath (project_misc w) (svd_name w (board st)))
             (matches_in_pack w pack "SVD/*.svd" (svd_name w (board st))) with
     | Some p =>
         with_board
           (update_str "debug.svd_path" (PurePath.as_posix (resolve w p))) st
     | None =>
         emit (Stderr "!-> SVD file not found. Debug feature may not work.") st
     end).
Proof.
  unfold set_svd_path. rewrite bind_unfold, find_svd_file_path_pick.
  by destruct (pick _ _ _).
Qed.

(** ** Matching a name without wildcard, and the pattern of the startup file *)

Lemma is_wildcard_pattern_cons (c : ascii) (s : string) :
  FS.is_wildcard_pattern (String c s) = false →
  Ascii.eqb c "*" = false ∧ Ascii.eqb c "?" = false ∧ Ascii.eqb c "[" = false
  ∧ FS.is_wildcard_pattern s = false.
Proof.
  unfold FS.is_wildcard_pattern. cbn [Str.contains].
  rewrite !orb_false_iff, !(Ascii.eqb_sym c). tauto.
Qed.

Lemma tokenize_literal (lit rest : string) :
  FS.is_wildcard_pattern lit = false →
  Fnmatch.tokenize 0 (lit +:+ rest)
  = (Fnmatch.TLit <$> list_ascii_of_string lit) ++ Fnmatch.tokenize 0 rest.
Proof.
  induction lit as [|c lit IH]; [done|].
  intros (Hstar & Hany & Hopen & Hlit)%is_wildcard_pattern_cons.
  change (String c lit +:+ rest) with (String c (lit +:+ rest)).
  cbn [Fnmatch.tokenize list_ascii_of_string fmap list_fmap app].
  rewrite Hstar, Hany, Hopen, (IH Hlit). reflexivity.
Qed.

Lemma match_tokens_literal (cs : list ascii) (ts : list Fnmatch.Token) (s : string) :
  Fnmatch.match_tokens ((Fnmatch.TLit <$> cs) ++ ts) s = true
  ↔ ∃ s', s = string_of_list_ascii cs +:+ s' ∧ Fnmatch.match_tokens ts s' = true.
Proof.
  revert s. induction cs as [|c cs IH]; intros s.
  - split; [intros Hts; by exists s | by intros (s' & -> & Hts)].
  - cbn [fmap list_fmap app Fnmatch.match_tokens string_of_list_ascii].
    destruct s as [|d s].
    + split; [done|]. by intros (s' & Hs & _).
    + rewrite andb_true_iff, Ascii.eqb_eq, IH. split.
      * intros (-> & s' & -> & Hts). by exists s'.
      * intros (s' & Hs & Hts).
        change (String c (string_of_list_ascii cs) +:+ s')
          with (String c (string_of_list_ascii cs +:+ s')) in Hs.
        injection Hs as -> ->. eauto.
Qed.

Lemma match_startup_suffix (s : string) :
  Fnmatch.match_tokens (Fnmatch.tokenize 0 ".[sS]") s = true
  ↔ s = ".s" ∨ s = ".S".
Proof.
  change (Fnmatch.tokenize 0 ".[sS]")
    with [Fnmatch.TLit "."; Fnmatch.TClass false ["s"; "S"]%char].
  destruct s as [|c1 [|c2 s]]; cbn [Fnmatch.match_tokens Fnmatch.in_class xorb].
  - split; [done | by intros [|]].
  - rewrite andb_false_r. split; [done | by intros [|]].
  - rewrite !andb_true_iff, !orb_true_iff, !Ascii.eqb_eq, bool_decide_eq_true.
    split.
    + intros (<- & [-> | [-> | Hnone]] & ->); [auto | auto | done].
    + intros [Hs | Hs]; injection Hs as <- <- <-; auto.
Qed.

(** For a product line without wildcard character the default startup
    pattern matches the file with extension [.s] and the one with [.S], and
    no other name. *)
Lemma startup_pattern_matches (pl f : string) :
  FS.is_wildcard_pattern pl = false →
  Fnmatch.fnmatch ("startup_" +:+ pl +:+ ".[sS]") f = true
  ↔ f = "startup_" +:+ pl +:+ ".s" ∨ f = "startup_" +:+ pl +:+ ".S".
Proof.
  intros Hpl. unfold Fnmatch.fnmatch.
  rewrite (tokenize_literal "startup_") by done.
  rewrite (tokenize_literal pl) by done.
  rewrite match_tokens_literal. setoid_rewrite match_tokens_literal.
  setoid_rewrite match_startup_suffix.
  rewrite !string_of_list_ascii_of_string.
  split.
  - intros (s1 & -> & s2 & -> & [-> | ->]); eauto.
  - intros [-> | ->]; eauto 10.
Qed.

(** ** Default names *)

(** C1: without overrides in the manifest the startup file is looked up as
    [startup_<product_line>.[sS]], the system file as
    [system_<product_line>.c], the SVD file as [<product_line>.svd] and the
    linker script as [<product_line>.ld]; the pack, however, is looked up as
    [device_path_<product_line>], which is not the documented
    [device_pack_<product_line>]. *)
Theorem default_names (w : World) (b : Board) :
  strs b !! "build.startup_file" = None →
  strs b !! "build.system_file" = None →
  strs b !! "debug.svd_name" = None →
  strs b !! "debug.svd_path" = None →
  strs b !! "build.ldscript" = None →
  get_startup_file_name w b = "startup_" +:+ product_line w +:+ ".[sS]"
  ∧ get_system_file_name w b = "system_" +:+ product_line w +:+ ".c"
  ∧ svd_name w b = product_line w +:+ ".svd"
  ∧ ld_name w b = product_line w +:+ ".ld"
  ∧ product_line_pack_name w = "device_path_" +:+ product_line w
  ∧ product_line_pack_name w ≠ "device_pack_" +:+ product_line w.
Proof.
  intros Hstartup Hsystem Hsvd Hsvd' Hld.
  unfold get_startup_file_name, get_system_file_name, svd_name, ld_name,
    product_line_pack_name.
  rewrite Hstartup, Hsystem, Hsvd, Hsvd', Hld.
  repeat split; try reflexivity.
  intros Heq. by simplify_eq/=.
Qed.

Lemma default_names_witness :
  get_startup_file_name Sample.bare Sample.board_plain = "startup_HK32F030M.[sS]"
  ∧ get_system_file_name Sample.bare Sample.board_plain = "system_HK32F030M.c"
  ∧ svd_name Sample.bare Sample.board_plain = "HK32F030M.svd"
  ∧ ld_name Sample.bare Sample.board_plain = "HK32F030M.ld"
  ∧ product_line_pack_name Sample.bare = "device_path_HK32F030M"
  ∧ product_line_pack_name Sample.bare ≠ "device_pack_HK32F030M".
Proof.
  apply (default_names Sample.bare Sample.board_plain); reflexivity.
Defined.

(** ** The device pack *)

(** C2: when the manifest names the pack and the library directories hold
    exactly one entry of that name, [find_device_pack_path] does not return
    it: the assertion on the number of matches fails. *)
Theorem explicit_pack_single_match_raises
    (w : World) (st : State) (name : string) (p : Path) :
  strs (board st) !! "device_pack" = Some name →
  find_pack w name = Returns [p] →
  find_device_pack_path w st
  = (Raises (AssertionError
               ("Found more than one device pack [ " +:+ name +:+ " ].")),
     st).
Proof.
  intros Hname Hfound. unfold find_device_pack_path.
  rewrite bind_unfold. cbn [get_board]. rewrite Hname.
  rewrite bind_unfold. unfold lift. rewrite Hfound. reflexivity.
Qed.

Lemma explicit_pack_single_match_raises_witness :
  find_pack Sample.named "mypack" = Returns [["proj"; "lib"; "mypack"]]
  ∧ find_device_pack_path Sample.named (initial_state Sample.named Sample.env0)
    = (Raises (AssertionError "Found more than one device pack [ mypack ]."),
       initial_state Sample.named Sample.env0).
Proof.
  split; [reflexivity|].
  apply (explicit_pack_single_match_raises Sample.named _ "mypack"
           ["proj"; "lib"; "mypack"]); reflexivity.
Defined.

(** ** The linker script *)

(** C3: when the linker script is neither in [misc] nor among the matches of
    the pack, the script ends with a [ValueError] and the environment is as
    it was; when it is in [misc], or is the only match of the pack, its
    resolved path becomes [LDSCRIPT_PATH]. *)
Theorem ldscript_missing_is_fatal_single_is_set
    (w : World) (pack : option Path) (st : State) :
  let name := ld_name w (board st) in
  let in_misc := PurePath.joinpath (project_misc w) name in
  let in_pack := matches_in_pack w pack "Ldscript/*.ld" name in
  (FS.exists_ (fs w) in_misc = false → in_pack = [] →
     set_ldscript w pack st
     = (Raises (ValueError "No ldscript file or wrong naming."),
        emit (Stderr "!-> Ldscript file not found.") st)
     ∧ env (set_ldscript w pack st).2 = env st)
  ∧ (∀ p, FS.exists_ (fs w) in_misc = true ∧ p = in_misc
          ∨ FS.exists_ (fs w) in_misc = false ∧ in_pack = [p] →
       set_ldscript w pack st
       = Replace_LDSCRIPT_PATH (PurePath.as_posix (resolve w p)) st
       ∧ LDSCRIPT_PATH (env (set_ldscript w pack st).2)
         = Some (PurePath.as_posix (resolve w p))).
Proof.
  intros name in_misc in_pack.
  rewrite set_ldscript_pick. fold name in_misc in_pack. unfold pick. split.
  - intros -> ->. done.
  - intros p [[-> ->]|[-> ->]]; done.
Qed.

Lemma ldscript_missing_is_fatal_single_is_set_witness :
  set_ldscript Sample.bare None (initial_state Sample.bare Sample.env0)
  = (Raises (ValueError "No ldscript file or wrong naming."),
     emit (Stderr "!-> Ldscript file not found.")
       (initial_state Sample.bare Sample.env0))
  ∧ LDSCRIPT_PATH
      (env (set_ldscript Sample.packed (Some Sample.pack_dir)
              (initial_state Sample.packed Sample.env0)).2)
    = Some "/proj/lib/device_path_HK32F030M/Ldscript/HK32F030M.ld".
Proof.
  split.
  - exact (proj1 (proj1 (ldscript_missing_is_fatal_single_is_set Sample.bare
                           None (initial_state Sample.bare Sample.env0))
                   eq_refl eq_refl)).
  - exact (proj2 (proj2 (ldscript_missing_is_fatal_single_is_set Sample.packed
                           (Some Sample.pack_dir)
                           (initial_state Sample.packed Sample.env0))
                   (Sample.pack_dir ++ ["Ldscript"; "HK32F030M.ld"])
                   (or_intror (conj eq_refl eq_refl)))).
Defined.

(** ** Sources in [src] and in the pack *)

Lemma find_source_file_in_src_found
    (w : World) (file_name : string) (in_src : list Path) (st : State) :
  two_layer_glob w (project_src w) file_name = Returns in_src →
  in_src ≠ [] →
  find_source_file_in_src w file_name st = (Returns true, st).
Proof.
  intros Hglob Hne. unfold find_source_file_in_src.
  rewrite bind_unfold. unfold lift. rewrite Hglob.
  destruct in_src as [|p l]; [done|].
  rewrite bool_decide_eq_true_2; [done | simpl; lia].
Qed.

Lemma find_source_file_in_src_missing
    (w : World) (file_name : string) (st : State) :
  two_layer_glob w (project_src w) file_name = Returns [] →
  find_source_file_in_src w file_name st
  = (Returns false, emit (Stdout ("--> No file " +:+ file_name +:+ " in src.")) st).
Proof.
  intros Hglob. unfold find_source_file_in_src.
  rewrite bind_unfold. unfold lift. by rewrite Hglob.
Qed.

Lemma find_source_file_in_device_pack_count
    (w : World) (d : Path) (parent file_name : string) (found : list Path)
    (st : State) :
  two_layer_glob w d (parent +:+ "/" +:+ file_name) = Returns found →
  find_source_file_in_device_pack w d parent file_name st
  = match found with
    | [] => (Returns None, st)
    | [p] =>
        (Returns (Some p),
         emit (Stdout ("--> Found source file " +:+ file_name
                       +:+ " in device pack.")) st)
    | _ =>
        (Returns None,
         emit (Stderr ("!-> Found multiple file " +:+ file_name
                       +:+ " in device pack. Discard.")) st)
    end.
Proof.
  intros Hglob. unfold find_source_file_in_device_pack.
  rewrite bind_unfold. unfold lift. rewrite Hglob.
  by destruct found as [|p [|q l]].
Qed.

(** ** Precedence *)

(** C4: a linker script or an SVD file that exists in [misc] is what the
    finder returns, whatever the pack is and holds; a startup or system file
    that the two-layer glob finds in [src] ends the lookup there: nothing of
    the pack is selected, nothing is printed, whatever the pack and the
    [use_device_pack_*] options are. *)
Theorem project_copy_wins (w : World) (pack : option Path) (st : State) :
  let ld_in_misc := PurePath.joinpath (project_misc w) (ld_name w (board st)) in
  let svd_in_misc := PurePath.joinpath (project_misc w) (svd_name w (board st)) in
  (FS.exists_ (fs w) ld_in_misc = true →
     find_ldscript_file_path w pack st = (Returns (Some ld_in_misc), st))
  ∧ (FS.exists_ (fs w) svd_in_misc = true →
     find_svd_file_path w pack st = (Returns (Some svd_in_misc), st))
  ∧ (∀ in_src,
       two_layer_glob w (project_src w) (get_startup_file_name w (board st))
       = Returns in_src →
       in_src ≠ [] →
       find_source_file_in_src w (get_startup_file_name w (board st)) st
       = (Returns true, st)
       ∧ find_startup w pack st = (Returns None, st))
  ∧ (∀ in_src,
       two_layer_glob w (project_src w) (get_system_file_name w (board st))
       = Returns in_src →
       in_src ≠ [] →
       find_source_file_in_src w (get_system_file_name w (board st)) st
       = (Returns true, st)
       ∧ find_system w pack st = (Returns None, st)).
Proof.
  intros ld_in_misc svd_in_misc. repeat split.
  - intros Hmisc. rewrite find_ldscript_file_path_pick. unfold pick.
    fold ld_in_misc. by rewrite Hmisc.
  - intros Hmisc. rewrite find_svd_file_path_pick. unfold pick.
    fold svd_in_misc. by rewrite Hmisc.
  - by eapply find_source_file_in_src_found.
  - unfold find_startup. rewrite bind_unfold. cbn [get_board].
    rewrite bind_unfold.
    by erewrite find_source_file_in_src_found.
  - by eapply find_source_file_in_src_found.
  - unfold find_system. rewrite bind_unfold. cbn [get_board].
    rewrite bind_unfold.
    by erewrite find_source_file_in_src_found.
Qed.

Lemma project_copy_wins_witness :
  matches_in_pack Sample.shadowed (Some Sample.pack_dir)
    "Ldscript/*.ld" "HK32F030M.ld" ≠ []
  ∧ find_ldscript_file_path Sample.shadowed (Some Sample.pack_dir)
      (initial_state Sample.shadowed Sample.env0)
    = (Returns (Some ["proj"; "misc"; "HK32F030M.ld"]),
       initial_state Sample.shadowed Sample.env0)
  ∧ find_svd_file_path Sample.shadowed (Some Sample.pack_dir)
      (initial_state Sample.shadowed Sample.env0)
    = (Returns (Some ["proj"; "misc"; "HK32F030M.svd"]),
       initial_state Sample.shadowed Sample.env0)
  ∧ find_startup Sample.shadowed (Some Sample.pack_dir)
      (initial_state Sample.shadowed Sample.env0)
    = (Returns None, initial_state Sample.shadowed Sample.env0)
  ∧ find_system Sample.shadowed (Some Sample.pack_dir)
      (initial_state Sample.shadowed Sample.env0)
    = (Returns None, initial_state Sample.shadowed Sample.env0).
Proof.
  pose proof (project_copy_wins Sample.shadowed (Some Sample.pack_dir)
                (initial_state Sample.shadowed Sample.env0))
    as (Hld & Hsvd & Hstartup & Hsystem).
  split; [by vm_compute|].
  split; [exact (Hld eq_refl)|].
  split; [exact (Hsvd eq_refl)|].
  split.
  - refine (proj2 (Hstartup [["proj"; "src"; "startup_HK32F030M.s"]] eq_refl _)).
    discriminate.
  - refine (proj2 (Hsystem [["proj"; "src"; "bsp"; "system_HK32F030M.c"]] eq_refl _)).
    discriminate.
Defined.

(** ** Ambiguity *)

(** C5: two or more matches in the pack are no match: the finders of the
    linker script and of the SVD file return nothing when [misc] has no file
    and the pack has several of the name, and the finder of a source file
    returns nothing, with a line on the error stream, when the glob of its
    folder finds several. *)
Theorem ambiguity_is_not_found (w : World) (d : Path) (st : State) :
  let ld := ld_name w (board st) in
  let svd := svd_name w (board st) in
  (FS.exists_ (fs w) (PurePath.joinpath (project_misc w) ld) = false →
   2 ≤ length (matches_in_pack w (Some d) "Ldscript/*.ld" ld) →
   find_ldscript_file_path w (Some d) st = (Returns None, st))
  ∧ (FS.exists_ (fs w) (PurePath.joinpath (project_misc w) svd) = false →
     2 ≤ length (matches_in_pack w (Some d) "SVD/*.svd" svd) →
     find_svd_file_path w (Some d) st = (Returns None, st))
  ∧ (∀ parent file_name found,
       two_layer_glob w d (parent +:+ "/" +:+ file_name) = Returns found →
       2 ≤ length found →
       find_source_file_in_device_pack w d parent file_name st
       = (Returns None,
          emit (Stderr ("!-> Found multiple file " +:+ file_name
                        +:+ " in device pack. Discard.")) st)).
Proof.
  intros ld svd. repeat split.
  - intros Hmisc Hlen. rewrite find_ldscript_file_path_pick.
    by rewrite pick_ambiguous.
  - intros Hmisc Hlen. rewrite find_svd_file_path_pick.
    by rewrite pick_ambiguous.
  - intros parent file_name found Hglob Hlen.
    rewrite (find_source_file_in_device_pack_count _ _ _ _ _ _ Hglob).
    destruct found as [|p [|q l]]; simpl in *; [lia|lia|done].
Qed.

Lemma ambiguity_is_not_found_witness :
  length (matches_in_pack Sample.twofold (Some Sample.pack_dir)
            "Ldscript/*.ld" "HK32F030M.ld") = 2
  ∧ find_ldscript_file_path Sample.twofold (Some Sample.pack_dir)
      (initial_state Sample.twofold Sample.env0)
    = (Returns None, initial_state Sample.twofold Sample.env0)
  ∧ find_svd_file_path Sample.twofold (Some Sample.pack_dir)
      (initial_state Sample.twofold Sample.env0)
    = (Returns None, initial_state Sample.twofold Sample.env0)
  ∧ find_source_file_in_device_pack Sample.twofold Sample.pack_dir "Startup"
      "startup_HK32F030M.[sS]" (initial_state Sample.twofold Sample.env0)
    = (Returns None,
       emit (Stderr "!-> Found multiple file startup_HK32F030M.[sS] in device pack. Discard.")
         (initial_state Sample.twofold Sample.env0)).
Proof.
  pose proof (ambiguity_is_not_found Sample.twofold Sample.pack_dir
                (initial_state Sample.twofold Sample.env0))
    as (Hld & Hsvd & Hsrc).
  split; [reflexivity|].
  split; [apply Hld; [reflexivity | vm_compute; lia]|].
  split; [apply Hsvd; [reflexivity | vm_compute; lia]|].
  apply (Hsrc "Startup" "startup_HK32F030M.[sS]"
           [Sample.pack_dir ++ ["Startup"; "startup_HK32F030M.s"];
            Sample.pack_dir ++ ["v2"; "Startup"; "startup_HK32F030M.s"]]);
    [reflexivity | simpl; lia].
Defined.

(** ** The SVD file *)

(** C6: [debug.svd_path] of the board is overridden exactly when the finder
    returns a file, and then with its resolved path; when it returns nothing
    (as it does for two or more matches in the pack) the board stays as it is
    and one line goes to the error stream. The finder itself never raises. *)
Theorem svd_path_updated_iff_found (w : World) (pack : option Path) (st : State) :
  let name := svd_name w (board st) in
  let in_misc := PurePath.joinpath (project_misc w) name in
  let in_pack := matches_in_pack w pack "SVD/*.svd" name in
  ∃ found : option Path,
    find_svd_file_path w pack st = (Returns found, st)
    ∧ set_svd_path w pack st
      = (Returns tt,
         match found with
         | Some p =>
             with_board
               (update_str "debug.svd_path" (PurePath.as_posix (resolve w p))) st
         | None =>
             emit (Stderr "!-> SVD file not found. Debug feature may not work.") st
         end)
    ∧ board (set_svd_path w pack st).2
      = match found with
        | Some p =>
            update_str "debug.svd_path" (PurePath.as_posix (resolve w p)) (board st)
        | None => board st
        end
    ∧ (FS.exists_ (fs w) in_misc = false → 2 ≤ length in_pack → found = None).
Proof.
  intros name in_misc in_pack.
  exists (pick (fs w) in_misc in_pack).
  rewrite set_svd_path_pick. fold name in_misc in_pack.
  split; [apply find_svd_file_path_pick|].
  split; [done|].
  split; [by destruct (pick _ _ _)|].
  apply pick_ambiguous.
Qed.

Lemma svd_path_updated_iff_found_witness :
  length (matches_in_pack Sample.packed (Some Sample.pack_dir)
            "SVD/*.svd" "HK32F030M.svd") = 2
  ∧ find_svd_file_path Sample.packed (Some Sample.pack_dir)
      (initial_state Sample.packed Sample.env0)
    = (Returns None, initial_state Sample.packed Sample.env0)
  ∧ board (set_svd_path Sample.packed (Some Sample.pack_dir)
             (initial_state Sample.packed Sample.env0)).2
    = board (initial_state Sample.packed Sample.env0).
Proof.
  destruct (svd_path_updated_iff_found Sample.packed (Some Sample.pack_dir)
              (initial_state Sample.packed Sample.env0))
    as (found & Hfind & _ & Hboard & Hnone).
  assert (found = None) as -> by (apply Hnone; [reflexivity | vm_compute; lia]).
  split; [reflexivity|]. split; [exact Hfind | exact Hboard].
Defined.

(** ** The search for the pack *)

Lemma split_on_without_separator (sep : ascii) (s : string) :
  Str.contains sep s = false → Str.split_on sep s = [s].
Proof.
  induction s as [|c s IH]; [done|]. simpl.
  rewrite Ascii.eqb_sym. destruct (Ascii.eqb c sep); [done|].
  intros Hs. by rewrite (IH Hs).
Qed.

Lemma contains2_contains (c : ascii) (s : string) :
  Str.contains c s = false → Str.contains2 c c s = false.
Proof.
  induction s as [|d s IH]; [done|]. simpl.
  destruct (Ascii.eqb c d); [done|]. simpl. intros Hs.
  destruct s as [|e s]; [done|]. exact (IH Hs).
Qed.

Lemma plain_name_parts (name : string) :
  plain_name name = true →
  name ≠ "" ∧ PurePath.is_absolute name = false
  ∧ PurePath.parse_parts name = [name]
  ∧ FS.is_wildcard_pattern name = false ∧ name ≠ "**".
Proof.
  unfold plain_name. rewrite !andb_true_iff, !negb_true_iff, !bool_decide_eq_true.
  intros [[[Hne Hdot] Hsep] Hwild].
  split; [done|]. split.
  { destruct name as [|c s]; [done|].
    cbn [PurePath.is_absolute Str.contains] in *.
    rewrite Ascii.eqb_sym. by destruct (Ascii.eqb "/" c). }
  split.
  { unfold PurePath.parse_parts. rewrite split_on_without_separator by done.
    rewrite filter_cons, filter_nil. by rewrite decide_True. }
  split; [done|]. by intros ->.
Qed.

Lemma glob_plain_name (tree : Node) (d : Path) (name : string) :
  plain_name name = true →
  FS.glob tree d name
  = Returns (if FS.is_dir tree d && FS.exists_ tree (d ++ [name])
             then [d ++ [name]] else []).
Proof.
  intros Hplain.
  destruct (plain_name_parts name Hplain) as (Hne & Habs & Hparts & Hwild & Hstar).
  rewrite glob_returns; rewrite ?Hparts; try done.
  - simpl. rewrite decide_False by done. rewrite Hwild.
    by destruct (FS.is_dir tree d), (FS.exists_ tree (d ++ [name])).
  - simpl. rewrite contains2_contains; [by rewrite andb_false_r|].
    unfold FS.is_wildcard_pattern in Hwild.
    by destruct (Str.contains "*" name).
Qed.

(** C7, as the script has it: [find_pack] looks for the pack name in each
    library directory itself and no deeper. For a pack name that is one
    literal path component it returns, in the order of the library
    directories, the entries [root / name] that exist; every result is a
    direct child of a library directory. *)
Theorem find_pack_searches_roots_only (w : World) (name : string) :
  plain_name name = true →
  find_pack w name
  = Returns (flat_map
               (λ root, if FS.is_dir (fs w) root
                           && FS.exists_ (fs w) (root ++ [name])
                        then [root ++ [name]] else [])
               (lib_path_list w)).
Proof.
  intros Hplain. unfold find_pack, lib_path_list.
  induction (project_all_lib_dirs w) as [|root roots IH]; [done|].
  rewrite (glob_plain_name _ _ _ Hplain). cbn [mbind Outcome_bind].
  rewrite IH. reflexivity.
Qed.

Lemma find_pack_searches_roots_only_witness :
  find_pack Sample.nested "mypack" = Returns []
  ∧ find_pack Sample.named "mypack" = Returns [["proj"; "lib"; "mypack"]].
Proof.
  split.
  - exact (find_pack_searches_roots_only Sample.nested "mypack" eq_refl).
  - exact (find_pack_searches_roots_only Sample.named "mypack" eq_refl).
Defined.

(** C7, as the claim has it, fails: packs of the name of the board, of the
    name the script derives and of the documented name sit one folder below
    the library directory, where a two-layer glob finds them, and the script
    finds no pack. *)
Lemma nested_pack_is_not_found :
  lib_path_list Sample.nested = [Sample.lib]
  ∧ strs (board (initial_state Sample.nested Sample.env0)) !! "device_pack"
    = Some "mypack"
  ∧ two_layer_glob Sample.nested Sample.lib "mypack"
    = Returns [["proj"; "lib"; "vendor"; "mypack"]]
  ∧ two_layer_glob Sample.nested Sample.lib (product_line_pack_name Sample.nested)
    = Returns [["proj"; "lib"; "vendor"; "device_path_HK32F030M"]]
  ∧ two_layer_glob Sample.nested Sample.lib "device_pack_HK32F030M"
    = Returns [["proj"; "lib"; "vendor"; "device_pack_HK32F030M"]]
  ∧ (find_device_pack_path Sample.nested
       (initial_state Sample.nested Sample.env0)).1
    = Returns None.
Proof. repeat split. Qed.

(** ** A pack without the source file *)

(** C8: when the file is not in [src], the option of the board allows the
    pack and the glob of the folder of the pack finds nothing, the lookup
    returns nothing and nothing is built for it, as the claim says; but the
    state it leaves is the state it was given with one line more, the line on
    standard output that the file is not in [src]. No warning is written:
    [find_source_file_in_device_pack] returns on its branch for no match
    without a word, where its branch for several matches, the branch of the
    script for a pack that is not allowed or not there, and the lookups of
    the SVD file and of the linker script all write to the error stream. *)
Theorem pack_without_source_is_silent (w : World) (d : Path) (st : State) :
  let startup_name := get_startup_file_name w (board st) in
  let system_name := get_system_file_name w (board st) in
  (flags (board st) !! "build.use_device_pack_startup" = Some true →
   two_layer_glob w (project_src w) startup_name = Returns [] →
   two_layer_glob w d ("Startup" +:+ "/" +:+ startup_name) = Returns [] →
   let st' := emit (Stdout ("--> No file " +:+ startup_name +:+ " in src.")) st in
   find_startup w (Some d) st = (Returns None, st')
   ∧ build_if_found w (Some d) None st' = (Returns tt, st'))
  ∧ (flags (board st) !! "build.use_device_pack_system" = Some true →
     two_layer_glob w (project_src w) system_name = Returns [] →
     two_layer_glob w d ("SystemSource" +:+ "/" +:+ system_name) = Returns [] →
     let st' := emit (Stdout ("--> No file " +:+ system_name +:+ " in src.")) st in
     find_system w (Some d) st = (Returns None, st')
     ∧ build_if_found w (Some d) None st' = (Returns tt, st')).
Proof.
  intros startup_name system_name. split.
  - intros Hflag Hsrc Hpack st'. split; [|done].
    unfold find_startup. rewrite bind_unfold. cbn [get_board].
    fold startup_name. rewrite bind_unfold.
    rewrite (find_source_file_in_src_missing _ _ _ Hsrc).
    cbn [negb]. rewrite bind_unfold. cbn [get_board emit board].
    rewrite Hflag. cbn [default from_option].
    by rewrite (find_source_file_in_device_pack_count _ _ _ _ _ _ Hpack).
  - intros Hflag Hsrc Hpack st'. split; [|done].
    unfold find_system. rewrite bind_unfold. cbn [get_board].
    fold system_name. rewrite bind_unfold.
    rewrite (find_source_file_in_src_missing _ _ _ Hsrc).
    cbn [negb]. rewrite bind_unfold. cbn [get_board emit board].
    rewrite Hflag. cbn [default from_option].
    by rewrite (find_source_file_in_device_pack_count _ _ _ _ _ _ Hpack).
Qed.

Lemma pack_without_source_is_silent_witness :
  find_system Sample.packed (Some Sample.pack_dir)
    (initial_state Sample.packed Sample.env0)
  = (Returns None,
     emit (Stdout "--> No file system_HK32F030M.c in src.")
       (initial_state Sample.packed Sample.env0)).
Proof.
  exact (proj1 (proj2 (pack_without_source_is_silent Sample.packed
                         Sample.pack_dir
                         (initial_state Sample.packed Sample.env0))
                  eq_refl eq_refl eq_refl)).
Defined.

(** The same on the sample project: the system file is not in [src], the
    board allows the pack, the pack is there and its [SystemSource] folder
    holds no such file; the lookup returns nothing and the error stream
    stays empty, where a warning was to be written. *)
Lemma pack_without_source_no_warning :
  get_system_file_name Sample.packed
    (board (initial_state Sample.packed Sample.env0)) = "system_HK32F030M.c"
  ∧ two_layer_glob Sample.packed (project_src Sample.packed) "system_HK32F030M.c"
    = Returns []
  ∧ flags (board (initial_state Sample.packed Sample.env0))
      !! "build.use_device_pack_system" = Some true
  ∧ FS.is_dir (fs Sample.packed) Sample.pack_dir = true
  ∧ two_layer_glob Sample.packed Sample.pack_dir "SystemSource/system_HK32F030M.c"
    = Returns []
  ∧ (find_system Sample.packed (Some Sample.pack_dir)
       (initial_state Sample.packed Sample.env0)).1 = Returns None
  ∧ ¬ ∃ text,
        Stderr text
        ∈ out (find_system Sample.packed (Some Sample.pack_dir)
                 (initial_state Sample.packed Sample.env0)).2.
Proof.
  repeat split.
  intros [text Hin]. vm_compute in Hin.
  apply list_elem_of_singleton in Hin. discriminate Hin.
Qed.

(** ** Building a source of the pack *)

Lemma append_assoc (a b c : string) : (a +:+ b) +:+ c = a +:+ b +:+ c.
Proof.
  induction a as [|x a IH]; [done|].
  change (String x ((a +:+ b) +:+ c) = String x (a +:+ b +:+ c)).
  by rewrite IH.
Qed.

Lemma strip_prefix_append (pre s : string) :
  Str.strip_prefix pre (pre +:+ s) = Some s.
Proof.
  induction pre as [|c pre IH]; [by destruct s|].
  change (String c pre +:+ s) with (String c (pre +:+ s)).
  cbn [Str.strip_prefix]. by rewrite Ascii.eqb_refl.
Qed.

Lemma removeprefix_append (pre s : string) :
  Str.removeprefix pre (pre +:+ s) = s.
Proof. unfold Str.removeprefix. by rewrite strip_prefix_append. Qed.

Lemma join_append (sep : string) (a b : list string) :
  a ≠ [] → b ≠ [] →
  Str.join sep (a ++ b) = (Str.join sep a +:+ sep) +:+ Str.join sep b.
Proof.
  intros Ha Hb. induction a as [|x a IH]; [done|].
  destruct a as [|y a].
  - destruct b as [|z b]; [done|].
    change (x +:+ sep +:+ Str.join sep (z :: b)
            = (x +:+ sep) +:+ Str.join sep (z :: b)).
    by rewrite append_assoc.
  - change (Str.join sep ((x :: y :: a) ++ b))
      with (x +:+ sep +:+ Str.join sep ((y :: a) ++ b)).
    rewrite IH by done.
    change (Str.join sep (x :: y :: a)) with (x +:+ sep +:+ Str.join sep (y :: a)).
    by rewrite !append_assoc.
Qed.

(** The path of a file below a directory, relative to it. *)
Lemma relative_path_below (d rel : Path) :
  d ≠ [] → rel ≠ [] →
  Str.removeprefix (PurePath.as_posix d +:+ "/") (PurePath.as_posix (d ++ rel))
  = Str.join "/" rel.
Proof.
  intros Hd Hrel. unfold PurePath.as_posix.
  rewrite join_append by done.
  rewrite <- !append_assoc. apply removeprefix_append.
Qed.

(** A startup or system file that a lookup returns comes from a pack. *)
Lemma find_startup_some (w : World) (pack : option Path) (st st' : State)
    (file : Path) :
  find_startup w pack st = (Returns (Some file), st') → is_Some pack.
Proof.
  unfold find_startup, find_source_file_in_src.
  rewrite !bind_unfold. cbn [get_board]. rewrite !bind_unfold. unfold lift.
  destruct (two_layer_glob _ _ _) as [in_src|e]; [|done].
  case_bool_decide; [done|].
  rewrite bind_unfold. cbn [print modify mret M_ret negb].
  rewrite bind_unfold. cbn [get_board].
  destruct (default false _), pack; try done.
Qed.

Lemma find_system_some (w : World) (pack : option Path) (st st' : State)
    (file : Path) :
  find_system w pack st = (Returns (Some file), st') → is_Some pack.
Proof.
  unfold find_system, find_source_file_in_src.
  rewrite !bind_unfold. cbn [get_board]. rewrite !bind_unfold. unfold lift.
  destruct (two_layer_glob _ _ _) as [in_src|e]; [|done].
  case_bool_decide; [done|].
  rewrite bind_unfold. cbn [print modify mret M_ret negb].
  rewrite bind_unfold. cbn [get_board].
  destruct (default false _), pack; try done.
Qed.

(** ** The header folders *)

(** C10: [find_header_path_in_device_pack] returns one path
    [pack_dir / entry] for every entry of [device_include], in order and
    whether or not the path exists, so nothing for an empty or absent list;
    the script appends them to [CPPPATH] when there are any, and does
    nothing without a pack. *)
Theorem header_paths_one_per_entry (pack_dir : Path) (st : State) :
  let include_list : list string :=
    default [] (lists (board st) !! "device_include") in
  find_header_path_in_device_pack pack_dir st
  = (Returns ((λ entry, PurePath.joinpath pack_dir entry) <$> include_list), st)
  ∧ (include_list = [] →
     find_header_path_in_device_pack pack_dir st = (Returns [], st)
     ∧ add_header_path (Some pack_dir) st = (Returns tt, st))
  ∧ (include_list ≠ [] →
     add_header_path (Some pack_dir) st
     = Append_CPPPATH
         ((λ entry, PurePath.joinpath pack_dir entry) <$> include_list) st)
  ∧ add_header_path None st = (Returns tt, st).
Proof.
  intros include_list.
  assert (Hfind : find_header_path_in_device_pack pack_dir st
    = (Returns ((λ entry, PurePath.joinpath pack_dir entry) <$> include_list), st)).
  { unfold find_header_path_in_device_pack. rewrite bind_unfold.
    cbn [get_board]. fold include_list.
    case_bool_decide as Hlen; [|done].
    by rewrite (nil_length_inv _ Hlen). }
  split; [done|]. split; [|split; [|done]].
  - intros Hnil. unfold add_header_path. rewrite bind_unfold, Hfind, Hnil.
    done.
  - intros Hne. unfold add_header_path. rewrite bind_unfold, Hfind.
    rewrite bool_decide_eq_true_2; [done|].
    rewrite length_fmap. destruct include_list; [done | simpl; lia].
Qed.

Lemma header_paths_one_per_entry_witness :
  find_header_path_in_device_pack Sample.pack_dir
    (initial_state Sample.packed Sample.env0)
  = (Returns [Sample.pack_dir ++ ["Include"]; Sample.pack_dir ++ ["CMSIS"; "Core"]],
     initial_state Sample.packed Sample.env0)
  ∧ CPPPATH (env (add_header_path (Some Sample.pack_dir)
                    (initial_state Sample.packed Sample.env0)).2)
    = [Sample.pack_dir ++ ["Include"]; Sample.pack_dir ++ ["CMSIS"; "Core"]]
  ∧ add_header_path (Some Sample.pack_dir)
      (initial_state Sample.bare Sample.env0)
    = (Returns tt, initial_state Sample.bare Sample.env0).
Proof.
  pose proof (header_paths_one_per_entry Sample.pack_dir
                (initial_state Sample.packed Sample.env0))
    as (Hfind & _ & Hne & _).
  pose proof (header_paths_one_per_entry Sample.pack_dir
                (initial_state Sample.bare Sample.env0))
    as (_ & Hnil & _).
  split; [exact Hfind|]. split.
  - rewrite Hne; [reflexivity | discriminate].
  - exact (proj2 (Hnil eq_refl)).
Defined.

(** ** The script as a whole *)

Section Preserves.
Context {X : Type} (proj : State → X).

Lemma preserves_ret {A} (a : A) : preserves proj (mret a).
Proof. by intros st. Qed.

Lemma preserves_raise {A} (e : Exception) : preserves proj (raise (A:=A) e).
Proof. by intros st. Qed.

Lemma preserves_lift {A} (o : Outcome A) : preserves proj (lift o).
Proof. by intros st. Qed.

Lemma preserves_get_board : preserves proj get_board.
Proof. by intros st. Qed.

Lemma preserves_bind {A B} (m : M A) (f : A → M B) :
  preserves proj m → (∀ a, preserves proj (f a)) → preserves proj (m ≫= f).
Proof.
  intros Hm Hf st. rewrite bind_unfold. specialize (Hm st).
  destruct (m st) as [[a|e] st']; simpl in *; [|done].
  by rewrite Hf.
Qed.

Lemma preserves_modify (f : State → State) :
  (∀ st, proj (f st) = proj st) → preserves proj (modify f).
Proof. intros Hf st. apply Hf. Qed.

Lemma preserves_assert (cond : bool) (msg : string) :
  preserves proj (assert cond msg).
Proof. destruct cond; [apply preserves_ret | apply preserves_raise]. Qed.

End Preserves.

Ltac preserve :=
  repeat first
    [ apply preserves_ret | apply preserves_raise | apply preserves_lift
    | apply preserves_get_board | apply preserves_assert
    | apply preserves_modify; by intros []
    | apply preserves_bind; [|intros ?]
    | match goal with
      | |- preserves _ (match ?x with _ => _ end) => destruct x
      end ].

Lemma locate_pack_preserves_env (w : World) : preserves env (locate_pack w).
Proof.
  unfold locate_pack, find_device_pack_path, VerboseAction, print. preserve.
Qed.

Lemma locate_pack_preserves_board (w : World) : preserves board (locate_pack w).
Proof.
  unfold locate_pack, find_device_pack_path, VerboseAction, print. preserve.
Qed.

Lemma set_ldscript_preserves_board (w : World) (pack : option Path) :
  preserves board (set_ldscript w pack).
Proof.
  unfold set_ldscript, find_ldscript_file_path, stderr_write,
    Replace_LDSCRIPT_PATH.
  preserve.
Qed.

Lemma after_ldscript_preserves_ldscript (w : World) (pack : option Path) :
  preserves ldscript_path (after_ldscript w pack).
Proof.
  unfold after_ldscript, after_svd, set_svd_path, find_svd_file_path,
    add_header_path,
    find_header_path_in_device_pack, find_startup, find_system,
    find_source_file_in_src, find_source_file_in_device_pack, build_if_found,
    build_source_file_in_device_pack, get_relative_path_to_device_pack,
    board_update_str, stderr_write, print, Append_CPPPATH, Append_LINKFLAGS,
    BuildSources.
  preserve.
Qed.

Lemma after_svd_preserves_board (w : World) (pack : option Path) :
  preserves board (after_svd w pack).
Proof.
  unfold after_svd, add_header_path,
    find_header_path_in_device_pack, find_startup, find_system,
    find_source_file_in_src, find_source_file_in_device_pack, build_if_found,
    build_source_file_in_device_pack, get_relative_path_to_device_pack,
    stderr_write, print, Append_CPPPATH, Append_LINKFLAGS,
    BuildSources.
  preserve.
Qed.

(** The script from the pack on. *)
Lemma script_from_pack (w : World) (st0 st1 : State) (pack : option Path) :
  product_line w ≠ "" →
  locate_pack w (with_board (update_list "frameworks" []) st0)
  = (Returns pack, st1) →
  script w st0 = (set_ldscript w pack;; after_ldscript w pack) st1.
Proof.
  intros Hpl Hpack. unfold script.
  rewrite bind_unfold, bool_decide_eq_true_2 by done. cbn [assert mret M_ret].
  rewrite bind_unfold. cbn [do_not_support_any_framework board_update_list modify].
  rewrite bind_unfold, Hpack. reflexivity.
Qed.

(** X15: the linker script over a whole run that gets as far as a pack (or
    none): without a file in [misc] and without a match in the pack the run
    ends with the [ValueError] and the environment is as it was at the start;
    with the file in [misc], or with one match in the pack, [LDSCRIPT_PATH]
    is its resolved path when the run ends, however it ends. *)
Theorem script_ldscript_path (w : World) (st0 st1 : State) (pack : option Path) :
  product_line w ≠ "" →
  locate_pack w (with_board (update_list "frameworks" []) st0)
  = (Returns pack, st1) →
  let name := ld_name w (board st0) in
  let in_misc := PurePath.joinpath (project_misc w) name in
  let in_pack := matches_in_pack w pack "Ldscript/*.ld" name in
  (FS.exists_ (fs w) in_misc = false → in_pack = [] →
     script w st0
     = (Raises (ValueError "No ldscript file or wrong naming."),
        emit (Stderr "!-> Ldscript file not found.") st1)
     ∧ env (script w st0).2 = env st0)
  ∧ (∀ p, FS.exists_ (fs w) in_misc = true ∧ p = in_misc
          ∨ FS.exists_ (fs w) in_misc = false ∧ in_pack = [p] →
       LDSCRIPT_PATH (env (script w st0).2)
       = Some (PurePath.as_posix (resolve w p))).
Proof.
  intros Hpl Hpack name in_misc in_pack.
  rewrite (script_from_pack _ _ _ _ Hpl Hpack).
  pose proof (locate_pack_preserves_board w
                (with_board (update_list "frameworks" []) st0)) as Hboard.
  pose proof (locate_pack_preserves_env w
                (with_board (update_list "frameworks" []) st0)) as Henv.
  rewrite Hpack in Hboard, Henv. cbn [snd with_board board env] in Hboard, Henv.
  assert (Hname : ld_name w (board st1) = name).
  { unfold name, ld_name. by rewrite Hboard. }
  rewrite bind_unfold, set_ldscript_pick, Hname.
  fold in_misc in_pack. unfold pick. split.
  - by intros -> ->.
  - intros p [[-> ->]|[-> ->]]; cbn [Replace_LDSCRIPT_PATH modify];
      apply (after_ldscript_preserves_ldscript w pack).
Qed.

(** X16: the board over a whole run that gets past the linker script: it is the
    manifest without frameworks, with [debug.svd_path] overridden exactly
    when the finder of the SVD file returns a file. *)
Theorem script_board
    (w : World) (st0 st1 st2 : State) (pack : option Path) :
  product_line w ≠ "" →
  locate_pack w (with_board (update_list "frameworks" []) st0)
  = (Returns pack, st1) →
  set_ldscript w pack st1 = (Returns tt, st2) →
  ∃ found : option Path,
    find_svd_file_path w pack st2 = (Returns found, st2)
    ∧ board (script w st0).2
      = match found with
        | Some p =>
            update_str "debug.svd_path" (PurePath.as_posix (resolve w p))
              (update_list "frameworks" [] (board st0))
        | None => update_list "frameworks" [] (board st0)
        end.
Proof.
  intros Hpl Hpack Hld.
  rewrite (script_from_pack _ _ _ _ Hpl Hpack).
  pose proof (locate_pack_preserves_board w
                (with_board (update_list "frameworks" []) st0)) as Hboard1.
  pose proof (set_ldscript_preserves_board w pack st1) as Hboard2.
  rewrite Hpack in Hboard1. rewrite Hld in Hboard2.
  cbn [snd with_board board] in Hboard1, Hboard2.
  eexists. split; [apply find_svd_file_path_pick|].
  rewrite bind_unfold, Hld. unfold after_ldscript.
  rewrite bind_unfold, set_svd_path_pick.
  rewrite (after_svd_preserves_board w pack).
  rewrite <- Hboard1, <- Hboard2. by destruct (pick _ _ _).
Qed.

(** ** Runs of the sample worlds *)

(** No linker script in [misc] and no pack: the run ends with the
    [ValueError], the environment untouched. *)
Example run_bare :
  (run Sample.bare Sample.env0).1
  = Raises (ValueError "No ldscript file or wrong naming.")
  ∧ env (run Sample.bare Sample.env0).2 = Sample.env0.
Proof. split; reflexivity. Qed.

(** A pack with one linker script, two SVD files, one startup file and no
    system file: the run returns; the linker script and the startup file come
    from the pack, the board keeps no [debug.svd_path], and the error stream
    has the line of the SVD file and no line on the system file. *)
Example run_packed :
  (run Sample.packed Sample.env0).1 = Returns tt
  ∧ env (run Sample.packed Sample.env0).2
    = {| LDSCRIPT_PATH :=
           Some "/proj/lib/device_path_HK32F030M/Ldscript/HK32F030M.ld";
         CPPPATH := [Sample.pack_dir ++ ["Include"];
                     Sample.pack_dir ++ ["CMSIS"; "Core"]];
         LINKFLAGS := ["--specs=nano.specs"; "--specs=nosys.specs"];
         BUILD_SOURCES :=
           [("$BUILD_DIR/SourceInDevicePack", "/proj/lib/device_path_HK32F030M",
             ["-<*>"; "+<Startup/startup_HK32F030M.S>"])] |}
  ∧ strs (board (run Sample.packed Sample.env0).2) !! "debug.svd_path" = None
  ∧ out (run Sample.packed Sample.env0).2
    = [Verbose "--> Finding device pack in: [PosixPath('/proj/lib')]";
       Verbose "--> Device pack selected: /proj/lib/device_path_HK32F030M";
       Stderr "!-> SVD file not found. Debug feature may not work.";
       Stdout "--> No file startup_HK32F030M.[sS] in src.";
       Stdout "--> Found source file startup_HK32F030M.[sS] in device pack.";
       Stdout "--> No file system_HK32F030M.c in src."].
Proof. repeat split; vm_compute; reflexivity. Qed.

(** Every file in the project and in the pack: nothing of the pack is
    used. *)
Example run_shadowed :
  (run Sample.shadowed Sample.env0).1 = Returns tt
  ∧ LDSCRIPT_PATH (env (run Sample.shadowed Sample.env0).2)
    = Some "/proj/misc/HK32F030M.ld"
  ∧ strs (board (run Sample.shadowed Sample.env0).2) !! "debug.svd_path"
    = Some "/proj/misc/HK32F030M.svd"
  ∧ BUILD_SOURCES (env (run Sample.shadowed Sample.env0).2) = [].
Proof. repeat split; vm_compute; reflexivity. Qed.

(** The pack named by the board in two library directories: the run ends in
    the assertion, before any lookup. *)
Example run_twice :
  find_pack Sample.twice "mypack"
  = Returns [["proj"; "lib"; "mypack"]; ["proj"; "deps"; "mypack"]]
  ∧ (run Sample.twice Sample.env0).1
    = Raises (AssertionError "Found more than one device pack [ mypack ].")
  ∧ env (run Sample.twice Sample.env0).2 = Sample.env0.
Proof. repeat split; vm_compute; reflexivity. Qed.

(** * Further properties *)

(** ** The device pack, case by case *)

Lemma find_device_pack_path_cases (w : World) (st : State) :
  find_device_pack_path w st
  = let by_product_line :=
      match find_pack w (product_line_pack_name w) with
      | Raises e => (Raises e, st)
      | Returns [] =>
          (Returns None,
           emit (Stdout ("?-> Device pack [ " +:+ product_line_pack_name w
                         +:+ " ] not found.")) st)
      | Returns [p] => (Returns (Some p), st)
      | Returns _ =>
          (Raises (AssertionError
                     ("Found more than one device pack [ "
                      +:+ product_line_pack_name w +:+ " ].")), st)
      end in
    match strs (board st) !! "device_pack" with
    | Some name =>
        match find_pack w name with
        | Raises e => (Raises e, st)
        | Returns [] => by_product_line
        | Returns _ =>
            (Raises (AssertionError
                       ("Found more than one device pack [ " +:+ name +:+ " ].")),
             st)
        end
    | None => by_product_line
    end.
Proof.
  assert (Hdefault :
    (product_line_name_pack_list ← lift (find_pack w (product_line_pack_name w));
     let list_len := length product_line_name_pack_list in
     assert (bool_decide (list_len < 2))
       ("Found more than one device pack [ " +:+ product_line_pack_name w +:+ " ].");;
     if bool_decide (list_len = 0) then
       print ("?-> Device pack [ " +:+ product_line_pack_name w +:+ " ] not found.");;
       mret None
     else mret (head product_line_name_pack_list)) st
    = match find_pack w (product_line_pack_name w) with
      | Raises e => (Raises e, st)
      | Returns [] =>
          (Returns None,
           emit (Stdout ("?-> Device pack [ " +:+ product_line_pack_name w
                         +:+ " ] not found.")) st)
      | Returns [p] => (Returns (Some p), st)
      | Returns _ =>
          (Raises (AssertionError
                     ("Found more than one device pack [ "
                      +:+ product_line_pack_name w +:+ " ].")), st)
      end).
  { rewrite bind_unfold. unfold lift.
    by destruct (find_pack w (product_line_pack_name w)) as [[|p [|q l]]|e]. }
  unfold find_device_pack_path. rewrite bind_unfold. cbn [get_board].
  destruct (strs (board st) !! "device_pack") as [name|]; [|exact Hdefault].
  rewrite bind_unfold. unfold lift at 1.
  destruct (find_pack w name) as [[|p [|q l]]|e]; [|done..].
  rewrite bind_unfold.
  change (assert (bool_decide (length (@nil Path) ≤ 0)) ?msg st)
    with (Returns tt, st).
  change (bool_decide (length (@nil Path) = 1)) with false.
  cbv iota. exact Hdefault.
Qed.

(** X1: when the board names no pack, or names one that is found nowhere,
    the pack is looked up by the name derived from the product line: no match
    gives no pack and the line that it was not found, one match is the pack,
    and two or more end the run in an assertion. *)
Theorem pack_by_product_line (w : World) (st : State) (found : list Path) :
  (strs (board st) !! "device_pack" = None
   ∨ ∃ name, strs (board st) !! "device_pack" = Some name
             ∧ find_pack w name = Returns []) →
  find_pack w (product_line_pack_name w) = Returns found →
  find_device_pack_path w st
  = match found with
    | [] =>
        (Returns None,
         emit (Stdout ("?-> Device pack [ " +:+ product_line_pack_name w
                       +:+ " ] not found.")) st)
    | [p] => (Returns (Some p), st)
    | _ =>
        (Raises (AssertionError
                   ("Found more than one device pack [ "
                    +:+ product_line_pack_name w +:+ " ].")), st)
    end.
Proof.
  intros Hname Hfound. rewrite find_device_pack_path_cases. cbv zeta.
  rewrite Hfound.
  destruct Hname as [-> | (name & -> & ->)]; by destruct found as [|p [|q l]].
Qed.

Lemma pack_by_product_line_witness :
  find_device_pack_path Sample.packed (initial_state Sample.packed Sample.env0)
  = (Returns (Some Sample.pack_dir), initial_state Sample.packed Sample.env0)
  ∧ find_device_pack_path Sample.nested (initial_state Sample.nested Sample.env0)
    = (Returns None,
       emit (Stdout "?-> Device pack [ device_path_HK32F030M ] not found.")
         (initial_state Sample.nested Sample.env0)).
Proof.
  split.
  - exact (pack_by_product_line Sample.packed
             (initial_state Sample.packed Sample.env0) [Sample.pack_dir]
             (or_introl eq_refl) eq_refl).
  - exact (pack_by_product_line Sample.nested
             (initial_state Sample.nested Sample.env0) []
             (or_intror (ex_intro _ "mypack" (conj eq_refl eq_refl))) eq_refl).
Defined.

(** X2: a pack that [find_device_pack_path] returns is the one match of the
    name derived from the product line, and finding it prints nothing: the
    name the board gives never selects a pack. *)
Theorem returned_pack_is_by_product_line
    (w : World) (st st' : State) (p : Path) :
  find_device_pack_path w st = (Returns (Some p), st') →
  find_pack w (product_line_pack_name w) = Returns [p] ∧ st' = st.
Proof.
  rewrite find_device_pack_path_cases. cbv zeta.
  destruct (find_pack w (product_line_pack_name w)) as [[|q [|q' l]]|e];
    destruct (strs (board st) !! "device_pack") as [name|];
    try destruct (find_pack w name) as [[|r l']|e'];
    intros Hrun; by simplify_eq.
Qed.

Lemma returned_pack_is_by_product_line_witness :
  find_pack Sample.packed (product_line_pack_name Sample.packed)
  = Returns [Sample.pack_dir].
Proof.
  exact (proj1 (returned_pack_is_by_product_line Sample.packed
                  (initial_state Sample.packed Sample.env0)
                  (initial_state Sample.packed Sample.env0)
                  Sample.pack_dir eq_refl)).
Defined.

(** X3: a pack name of the board with two or more matches, such as one
    directory in each of two library directories, ends the run in an
    assertion, whatever the name derived from the product line matches. *)
Theorem explicit_pack_ambiguous_raises
    (w : World) (st : State) (name : string) (found : list Path) :
  strs (board st) !! "device_pack" = Some name →
  find_pack w name = Returns found →
  2 ≤ length found →
  find_device_pack_path w st
  = (Raises (AssertionError
               ("Found more than one device pack [ " +:+ name +:+ " ].")),
     st).
Proof.
  intros Hname Hfound Hlen. rewrite find_device_pack_path_cases. cbv zeta.
  rewrite Hname, Hfound.
  destruct found as [|p l]; [simpl in Hlen; lia | done].
Qed.

Lemma explicit_pack_ambiguous_raises_witness :
  find_device_pack_path Sample.twice (initial_state Sample.twice Sample.env0)
  = (Raises (AssertionError "Found more than one device pack [ mypack ]."),
     initial_state Sample.twice Sample.env0).
Proof.
  apply (explicit_pack_ambiguous_raises Sample.twice _ "mypack"
           [["proj"; "lib"; "mypack"]; ["proj"; "deps"; "mypack"]]);
    [reflexivity | reflexivity | simpl; lia].
Defined.

(** ** Frames of the whole script *)

Lemma script_from_frameworks (w : World) (st0 : State) :
  product_line w ≠ "" →
  script w st0 = from_pack w (with_board (update_list "frameworks" []) st0).
Proof.
  intros Hpl. unfold script.
  rewrite bind_unfold, bool_decide_eq_true_2 by done. reflexivity.
Qed.

(** Every lookup and every statement of the script but the two updates of
    the board. *)
Ltac unfold_script :=
  unfold from_pack, locate_pack, find_device_pack_path, set_ldscript,
    find_ldscript_file_path, after_ldscript, after_svd, after_linkflags,
    set_svd_path, find_svd_file_path, add_header_path,
    find_header_path_in_device_pack, find_startup, find_system,
    find_source_file_in_src, find_source_file_in_device_pack, build_if_found,
    build_source_file_in_device_pack, get_relative_path_to_device_pack,
    board_update_str, stderr_write, print, VerboseAction,
    Replace_LDSCRIPT_PATH, Append_CPPPATH, Append_LINKFLAGS, BuildSources.

Lemma from_pack_preserves_flags (w : World) :
  preserves (λ st, flags (board st)) (from_pack w).
Proof. unfold_script. preserve. Qed.

Lemma from_pack_preserves_lists (w : World) :
  preserves (λ st, lists (board st)) (from_pack w).
Proof. unfold_script. preserve. Qed.

Lemma from_pack_preserves_strs (w : World) (key : string) :
  key ≠ "debug.svd_path" →
  preserves (λ st, strs (board st) !! key) (from_pack w).
Proof.
  intros Hkey. unfold_script.
  repeat first
    [ apply preserves_modify; intros [b e o]; cbn;
      by rewrite ?lookup_insert_ne
    | progress preserve ].
Qed.

(** X4: a run with a product line leaves the board as it found it, but for
    [frameworks], which is the empty list afterwards, and for
    [debug.svd_path]: no option, no other list and no other name is changed,
    however the run ends. *)
Theorem board_frame (w : World) (st0 : State) :
  product_line w ≠ "" →
  flags (board (script w st0).2) = flags (board st0)
  ∧ lists (board (script w st0).2) = <["frameworks" := []]> (lists (board st0))
  ∧ ∀ key, key ≠ "debug.svd_path" →
      strs (board (script w st0).2) !! key = strs (board st0) !! key.
Proof.
  intros Hpl. rewrite (script_from_frameworks _ _ Hpl).
  split; [etrans; [apply (from_pack_preserves_flags w) | done]|].
  split; [etrans; [apply (from_pack_preserves_lists w) | done]|].
  intros key Hkey. etrans; [apply (from_pack_preserves_strs w key Hkey) | done].
Qed.

Lemma board_frame_witness :
  lists (board (run Sample.packed Sample.env0).2)
  = <["frameworks" := []]> (lists Sample.board_pack)
  ∧ strs (board (run Sample.shadowed Sample.env0).2) !! "build.product_line"
    = Some "HK32F030M".
Proof.
  split.
  - exact (proj1 (proj2 (board_frame Sample.packed
                           (initial_state Sample.packed Sample.env0)
                           ltac:(discriminate)))).
  - exact (proj2 (proj2 (board_frame Sample.shadowed
                           (initial_state Sample.shadowed Sample.env0)
                           ltac:(discriminate)))
             "build.product_line" ltac:(discriminate)).
Defined.

(** X5: without a product line in the manifest, or with an empty one, the
    run ends in an assertion before anything is changed or printed. *)
Theorem missing_product_line_aborts (w : World) (st0 : State) :
  strs (manifest w) !! "build.product_line" = None
  ∨ strs (manifest w) !! "build.product_line" = Some "" →
  script w st0
  = (Raises (AssertionError "Missing MCU or Product Line field"), st0).
Proof.
  intros Hpl. unfold script. rewrite bind_unfold.
  assert (product_line w = "") as ->; [|done].
  unfold product_line. by destruct Hpl as [-> | ->].
Qed.

(** ** The link flags, and what a run registers *)

(** A property of the outcome and of a projection of the state before and
    after carries over a first part that preserves the projection. *)
Lemma after_preserved {X A B : Type} (proj : State → X)
    (P : Outcome B → X → X → Prop) (m : M A) (f : A → M B) :
  preserves proj m →
  (∀ e x, P (Raises e) x x) →
  (∀ a st, P (f a st).1 (proj st) (proj (f a st).2)) →
  ∀ st, P ((m ≫= f) st).1 (proj st) (proj ((m ≫= f) st).2).
Proof.
  intros Hm Hraise Hf st. rewrite bind_unfold. specialize (Hm st).
  destruct (m st) as [[a|e] st']; cbn [fst snd] in *; rewrite <- Hm.
  - apply Hf.
  - apply Hraise.
Qed.

(** X6: the two link flags are appended at most once, and they are appended
    in every run that returns. *)
Theorem linkflags_appended_once (w : World) (st0 : State) :
  let specs := ["--specs=nano.specs"; "--specs=nosys.specs"] in
  (LINKFLAGS (env (script w st0).2) = LINKFLAGS (env st0)
   ∨ LINKFLAGS (env (script w st0).2) = LINKFLAGS (env st0) ++ specs)
  ∧ ((script w st0).1 = Returns tt →
     LINKFLAGS (env (script w st0).2) = LINKFLAGS (env st0) ++ specs).
Proof.
  intros specs.
  set (P := λ (o : Outcome unit) (x x' : list string),
              (x' = x ∨ x' = x ++ specs) ∧ (o = Returns tt → x' = x ++ specs)).
  assert (Hraise : ∀ e x, P (Raises e) x x) by (by split; [left|]).
  change (P (script w st0).1 (LINKFLAGS (env st0))
            (LINKFLAGS (env (script w st0).2))).
  unfold script.
  apply (after_preserved (λ st, LINKFLAGS (env st)) P);
    [preserve | done | intros _ st1].
  apply (after_preserved (λ st, LINKFLAGS (env st)) P);
    [unfold do_not_support_any_framework, board_update_list; preserve
    | done | intros _ st2].
  apply (after_preserved (λ st, LINKFLAGS (env st)) P);
    [unfold_script; preserve | done | intros pack st3].
  apply (after_preserved (λ st, LINKFLAGS (env st)) P);
    [unfold_script; preserve | done | intros _ st4].
  apply (after_preserved (λ st, LINKFLAGS (env st)) P);
    [unfold_script; preserve | done | intros _ st5].
  apply (after_preserved (λ st, LINKFLAGS (env st)) P);
    [unfold_script; preserve | done | intros _ st6].
  rewrite bind_unfold. cbn [Append_LINKFLAGS modify].
  assert (Hrest : preserves (λ st, LINKFLAGS (env st)) (after_linkflags w pack))
    by (unfold_script; preserve).
  change (LINKFLAGS (env st6) ++ specs)
    with (LINKFLAGS (env (with_env (λ e,
            {| LDSCRIPT_PATH := LDSCRIPT_PATH e; CPPPATH := CPPPATH e;
               LINKFLAGS := LINKFLAGS e ++ specs;
               BUILD_SOURCES := BUILD_SOURCES e |}) st6))).
  fold (after_linkflags w pack). rewrite Hrest. split; [by right | done].
Qed.

Lemma registers_preserves (w : World) {A} (m : M A) :
  preserves (λ st, BUILD_SOURCES (env st)) m → registers w 0 m.
Proof.
  intros Hm st. exists []. rewrite app_nil_r. split; [apply Hm|].
  split; [done | constructor].
Qed.

Lemma registers_bind (w : World) (n k : nat) {A B} (m : M A) (f : A → M B) :
  registers w n m → (∀ a, registers w k (f a)) →
  registers w (n + k) (m ≫= f).
Proof.
  intros Hm Hf st. rewrite bind_unfold.
  destruct (Hm st) as (l1 & Hl1 & Hn & Hok1).
  destruct (m st) as [[a|e] st']; cbn [snd] in *.
  - destruct (Hf a st') as (l2 & Hl2 & Hk & Hok2).
    exists (l1 ++ l2). rewrite Hl2, Hl1, length_app, Forall_app, app_assoc.
    repeat split; [lia | done | done].
  - exists l1. repeat split; [done | lia | done].
Qed.

Lemma registers_build_if_found (w : World) (pack path : option Path) :
  registers w 1 (build_if_found w pack path).
Proof.
  intros st. destruct path as [file|]; [destruct pack as [d|]|].
  - eexists [_]. split; [reflexivity|]. split; [done|].
    constructor; [|constructor]. split; [done|]. split; by eexists.
  - exists []. rewrite app_nil_r. repeat split; [simpl; lia | constructor].
  - exists []. rewrite app_nil_r. repeat split; [simpl; lia | constructor].
Qed.

(** X7: whatever the board, the filesystem and the end of the run, the
    script calls [BuildSources] at most twice, each time into
    [$BUILD_DIR/SourceInDevicePack], from a resolved directory and with a
    filter that excludes everything and includes one path. *)
Theorem at_most_two_pack_sources (w : World) (st0 : State) :
  ∃ added,
    BUILD_SOURCES (env (script w st0).2) = BUILD_SOURCES (env st0) ++ added
    ∧ length added ≤ 2
    ∧ Forall (pack_source_entry w) added.
Proof.
  revert st0. change (registers w 2 (script w)). unfold script.
  do 9 (apply (registers_bind w 0 2);
        [apply registers_preserves;
         unfold do_not_support_any_framework, board_update_list;
         unfold_script; preserve
        | intros ?]).
  apply (registers_bind w 1 1); [|intros _]; apply registers_build_if_found.
Qed.

(** X8: in a run that finds no pack, no header folder and no source are
    added: [CPPPATH] and the calls of [BuildSources] are at the end what
    they were at the start. *)
Theorem no_pack_adds_nothing (w : World) (st0 st1 : State) :
  product_line w ≠ "" →
  locate_pack w (with_board (update_list "frameworks" []) st0)
  = (Returns None, st1) →
  CPPPATH (env (script w st0).2) = CPPPATH (env st0)
  ∧ BUILD_SOURCES (env (script w st0).2) = BUILD_SOURCES (env st0).
Proof.
  intros Hpl Hpack. rewrite (script_from_pack _ _ _ _ Hpl Hpack).
  pose proof (locate_pack_preserves_env w
                (with_board (update_list "frameworks" []) st0)) as Henv.
  rewrite Hpack in Henv. cbn [snd with_board env] in Henv. rewrite <- Henv.
  assert (Hrest : preserves (λ st, (CPPPATH (env st), BUILD_SOURCES (env st)))
                    (set_ldscript w None;; after_ldscript w None)).
  { unfold_script. preserve. }
  specialize (Hrest st1). by simplify_eq/=.
Qed.

Lemma no_pack_adds_nothing_witness :
  CPPPATH (env (run Sample.nested Sample.env0).2) = []
  ∧ BUILD_SOURCES (env (run Sample.nested Sample.env0).2) = [].
Proof.
  exact (no_pack_adds_nothing Sample.nested
           (initial_state Sample.nested Sample.env0)
           (locate_pack Sample.nested
              (with_board (update_list "frameworks" [])
                 (initial_state Sample.nested Sample.env0))).2
           ltac:(discriminate) eq_refl).
Defined.

(** ** The two layers of the glob *)

Lemma fnmatch_star (name : string) : Fnmatch.fnmatch "*" name = true.
Proof.
  unfold Fnmatch.fnmatch.
  change (Fnmatch.tokenize 0 "*") with [Fnmatch.TStar].
  induction name as [|c name IH]; [done|].
  cbn [Fnmatch.match_tokens] in *. by rewrite IH, orb_true_r.
Qed.

Lemma match_tokens_star (ts : list Fnmatch.Token) (s : string) :
  Fnmatch.match_tokens (Fnmatch.TStar :: ts) s = true
  ↔ ∃ pre suf, s = pre +:+ suf ∧ Fnmatch.match_tokens ts suf = true.
Proof.
  induction s as [|c s IH].
  - cbn [Fnmatch.match_tokens]. rewrite orb_false_r. split.
    + intros Hts. by exists "", "".
    + intros (pre & suf & Hs & Hts). by destruct pre, suf.
  - change (Fnmatch.match_tokens (Fnmatch.TStar :: ts) (String c s))
      with (Fnmatch.match_tokens ts (String c s)
            || Fnmatch.match_tokens (Fnmatch.TStar :: ts) s).
    rewrite orb_true_iff, IH. split.
    + intros [Hts | (pre & suf & -> & Hts)].
      * by exists "", (String c s).
      * by exists (String c pre), suf.
    + intros (pre & suf & Hs & Hts). destruct pre as [|c' pre].
      * left. by rewrite Hs.
      * right. injection Hs as -> ->. by exists pre, suf.
Qed.

Lemma append_empty_r (s : string) : s +:+ "" = s.
Proof.
  induction s as [|c s IH]; [done|].
  change (String c (s +:+ "") = String c s). by rewrite IH.
Qed.

(** A pattern of a star and a literal matches the names that end in the
    literal. *)
Lemma fnmatch_star_suffix (lit name : string) :
  FS.is_wildcard_pattern lit = false →
  Fnmatch.fnmatch ("*" +:+ lit) name = true ↔ ∃ stem, name = stem +:+ lit.
Proof.
  intros Hlit. unfold Fnmatch.fnmatch.
  change (Fnmatch.tokenize 0 ("*" +:+ lit))
    with (Fnmatch.TStar :: Fnmatch.tokenize 0 lit).
  rewrite <- (append_empty_r lit) at 1.
  rewrite (tokenize_literal lit "") by done.
  rewrite match_tokens_star. setoid_rewrite match_tokens_literal.
  rewrite string_of_list_ascii_of_string. split.
  - intros (pre & suf & -> & s' & -> & Hs'). exists pre.
    destruct s'; [|done]. by rewrite append_empty_r.
  - intros (stem & ->). exists stem, lit. split; [done|].
    exists "". by rewrite append_empty_r.
Qed.

Lemma parse_parts_star_slash (name : string) :
  plain_name name = true →
  PurePath.parse_parts ("*/" +:+ name) = ["*"; name].
Proof.
  intros Hplain.
  destruct (plain_name_parts name Hplain) as (_ & _ & Hparts & _ & _).
  revert Hparts. unfold PurePath.parse_parts.
  change (Str.split_on "/" ("*/" +:+ name)) with ("*" :: Str.split_on "/" name).
  intros Hparts. rewrite filter_cons, decide_True by done. by rewrite Hparts.
Qed.

Lemma glob_one_level_deeper (tree : Node) (d : Path) (name : string) :
  plain_name name = true →
  FS.glob tree d ("*/" +:+ name)
  = Returns
      (if FS.is_dir tree d then
         flat_map
           (λ e : string * Node,
              if FS.node_is_dir e.2 && FS.exists_ tree ((d ++ [e.1]) ++ [name])
              then [(d ++ [e.1]) ++ [name]] else [])
           (FS.scandir tree d)
       else []).
Proof.
  intros Hplain.
  destruct (plain_name_parts name Hplain) as (Hne & Habs & Hparts & Hwild & Hstar).
  assert (Hstars : Str.contains2 "*" "*" name = false).
  { apply contains2_contains. unfold FS.is_wildcard_pattern in Hwild.
    by destruct (Str.contains "*" name). }
  rewrite glob_returns; rewrite ?parse_parts_star_slash; try done.
  - destruct (FS.is_dir tree d); [|done]. f_equal.
    cbn [FS.select_from]. rewrite decide_False by done.
    change (FS.is_wildcard_pattern "*") with true. cbv iota.
    apply flat_map_ext. intros [c n].
    rewrite fnmatch_star, andb_true_r.
    change (negb (negb (bool_decide ([name] = [])))) with false.
    rewrite orb_false_l. cbn [fst snd].
    destruct (FS.node_is_dir n); [|done]. cbn [andb].
    rewrite decide_False by done. rewrite Hwild. done.
  - cbn [existsb]. rewrite Hstars. by rewrite !andb_false_r.
Qed.

(** X9: for a name that is one literal path component the two-layer glob
    returns the entry of that name in the folder, when there is one, then the
    entries of that name in the directories of the folder, in the order of
    the folder: nothing that lies deeper. *)
Theorem two_layer_glob_plain_name (w : World) (folder : Path) (name : string) :
  plain_name name = true →
  two_layer_glob w folder name
  = Returns
      ((if FS.is_dir (fs w) folder && FS.exists_ (fs w) (folder ++ [name])
        then [folder ++ [name]] else [])
       ++ (if FS.is_dir (fs w) folder then
             flat_map
               (λ e : string * Node,
                  if FS.node_is_dir e.2
                     && FS.exists_ (fs w) ((folder ++ [e.1]) ++ [name])
                  then [(folder ++ [e.1]) ++ [name]] else [])
               (FS.scandir (fs w) folder)
           else []))
  ∧ ∀ found p,
      two_layer_glob w folder name = Returns found → p ∈ found →
      p = folder ++ [name] ∨ ∃ sub, p = folder ++ [sub; name].
Proof.
  intros Hplain.
  assert (Hglob : two_layer_glob w folder name
    = Returns
      ((if FS.is_dir (fs w) folder && FS.exists_ (fs w) (folder ++ [name])
        then [folder ++ [name]] else [])
       ++ (if FS.is_dir (fs w) folder then
             flat_map
               (λ e : string * Node,
                  if FS.node_is_dir e.2
                     && FS.exists_ (fs w) ((folder ++ [e.1]) ++ [name])
                  then [(folder ++ [e.1]) ++ [name]] else [])
               (FS.scandir (fs w) folder)
           else []))).
  { unfold two_layer_glob.
    by rewrite (glob_plain_name _ _ _ Hplain), (glob_one_level_deeper _ _ _ Hplain). }
  split; [exact Hglob|].
  intros found p Hfound Hp. rewrite Hglob in Hfound. injection Hfound as <-.
  apply elem_of_app in Hp as [Hp | Hp].
  - left.
    destruct (FS.is_dir (fs w) folder && FS.exists_ (fs w) (folder ++ [name]));
      [by apply list_elem_of_singleton in Hp | by apply elem_of_nil in Hp].
  - right. destruct (FS.is_dir (fs w) folder); [|by apply elem_of_nil in Hp].
    apply list_elem_of_In, in_flat_map in Hp as ([sub n] & _ & Hp).
    apply list_elem_of_In in Hp. cbn [fst snd] in Hp.
    destruct (FS.node_is_dir n && FS.exists_ (fs w) ((folder ++ [sub]) ++ [name]));
      [|by apply elem_of_nil in Hp].
    apply list_elem_of_singleton in Hp as ->. exists sub. by rewrite <- app_assoc.
Qed.

Lemma two_layer_glob_plain_name_witness :
  two_layer_glob Sample.shadowed (project_src Sample.shadowed) "system_HK32F030M.c"
  = Returns [["proj"; "src"; "bsp"; "system_HK32F030M.c"]].
Proof.
  exact (proj1 (two_layer_glob_plain_name Sample.shadowed
                  (project_src Sample.shadowed) "system_HK32F030M.c" eq_refl)).
Defined.

(** ** Where the pack may hold the linker script and the SVD file *)

Lemma select_from_folder_wild
    (tree : Node) (d : Path) (sub pat : string) (p : Path) :
  FS.is_wildcard_pattern sub = false → sub ≠ "**" →
  FS.is_wildcard_pattern pat = true → pat ≠ "**" →
  p ∈ FS.select_from tree [sub; pat] d →
  ∃ nm, p = d ++ [sub; nm] ∧ Fnmatch.fnmatch pat nm = true.
Proof.
  intros Hsub Hsub' Hpat Hpat'. cbn [FS.select_from].
  rewrite !decide_False by done. rewrite Hsub, Hpat.
  change (negb (bool_decide ([pat] = []))) with true. cbv iota.
  destruct (FS.is_dir tree (d ++ [sub])); [|by intros ?%elem_of_nil].
  intros ([nm n] & _ & Hp)%list_elem_of_In%in_flat_map.
  apply list_elem_of_In in Hp. cbn [fst snd] in Hp.
  destruct (_ && Fnmatch.fnmatch pat nm) eqn:Hmatch; [|by apply elem_of_nil in Hp].
  apply list_elem_of_singleton in Hp as ->. exists nm.
  rewrite <- app_assoc. split; [done|].
  by apply andb_true_iff in Hmatch as [_ ?].
Qed.

Lemma select_from_star_folder_wild
    (tree : Node) (d : Path) (sub pat : string) (p : Path) :
  FS.is_wildcard_pattern sub = false → sub ≠ "**" →
  FS.is_wildcard_pattern pat = true → pat ≠ "**" →
  p ∈ FS.select_from tree ["*"; sub; pat] d →
  ∃ x nm, p = d ++ [x; sub; nm] ∧ Fnmatch.fnmatch pat nm = true.
Proof.
  intros Hsub Hsub' Hpat Hpat'.
  change (FS.select_from tree ["*"; sub; pat] d)
    with (flat_map
            (λ e : string * Node,
               if (negb (negb (bool_decide ([sub; pat] = [])))
                   || FS.node_is_dir e.2) && Fnmatch.fnmatch "*" e.1
               then FS.select_from tree [sub; pat] (d ++ [e.1])
               else [])
            (FS.scandir tree d)).
  intros ([x n] & _ & Hp)%list_elem_of_In%in_flat_map.
  apply list_elem_of_In in Hp. cbn [fst snd] in Hp.
  destruct (_ && Fnmatch.fnmatch "*" x); [|by apply elem_of_nil in Hp].
  destruct (select_from_folder_wild _ _ _ _ _ Hsub Hsub' Hpat Hpat' Hp)
    as (nm & -> & Hnm).
  exists x, nm. by rewrite <- app_assoc.
Qed.

(** The matches of a lookup in a folder of the pack: they lie in the folder,
    directly in the pack or one directory deeper, and carry the name looked
    for, which the pattern of the folder matches. *)
Lemma matches_in_pack_shape
    (w : World) (d : Path) (pattern sub pat name : string) (p : Path) :
  FS.is_wildcard_pattern sub = false → sub ≠ "**" →
  FS.is_wildcard_pattern pat = true → pat ≠ "**" →
  two_layer_glob w d pattern
  = Returns ((if FS.is_dir (fs w) d
              then FS.select_from (fs w) [sub; pat] d else [])
             ++ (if FS.is_dir (fs w) d
                 then FS.select_from (fs w) ["*"; sub; pat] d else [])) →
  p ∈ matches_in_pack w (Some d) pattern name →
  Fnmatch.fnmatch pat name = true
  ∧ (p = d ++ [sub; name] ∨ ∃ x, p = d ++ [x; sub; name]).
Proof.
  intros Hsub Hsub' Hpat Hpat' Hglob. unfold matches_in_pack. rewrite Hglob.
  intros [Hname Hp]%list_elem_of_filter.
  destruct (FS.is_dir (fs w) d); [|by apply elem_of_nil in Hp].
  apply elem_of_app in Hp as [Hp | Hp].
  - destruct (select_from_folder_wild _ _ _ _ _ Hsub Hsub' Hpat Hpat' Hp)
      as (nm & -> & Hnm).
    unfold PurePath.name in Hname.
    change (d ++ [sub; nm]) with (d ++ [sub] ++ [nm]) in Hname.
    rewrite app_assoc, last_last in Hname. subst nm. auto.
  - destruct (select_from_star_folder_wild _ _ _ _ _ Hsub Hsub' Hpat Hpat' Hp)
      as (x & nm & -> & Hnm).
    unfold PurePath.name in Hname.
    change (d ++ [x; sub; nm]) with (d ++ [x; sub] ++ [nm]) in Hname.
    rewrite app_assoc, last_last in Hname. subst nm. eauto.
Qed.

(** X10: a linker script that [find_ldscript_file_path] returns is the file
    of its name in [misc], or lies in the folder [Ldscript] of the pack or of
    a directory of the pack, under its name, which then ends in [.ld]; the
    same holds for [find_svd_file_path], the folder [SVD] and [.svd]. *)
Theorem pack_file_location
    (w : World) (pack : option Path) (st st' : State) (p : Path) :
  (find_ldscript_file_path w pack st = (Returns (Some p), st') →
   let name := ld_name w (board st) in
   p = PurePath.joinpath (project_misc w) name
   ∨ ∃ d, pack = Some d
          ∧ (∃ stem, name = stem +:+ ".ld")
          ∧ (p = d ++ ["Ldscript"; name] ∨ ∃ x, p = d ++ [x; "Ldscript"; name]))
  ∧ (find_svd_file_path w pack st = (Returns (Some p), st') →
     let name := svd_name w (board st) in
     p = PurePath.joinpath (project_misc w) name
     ∨ ∃ d, pack = Some d
            ∧ (∃ stem, name = stem +:+ ".svd")
            ∧ (p = d ++ ["SVD"; name] ∨ ∃ x, p = d ++ [x; "SVD"; name])).
Proof.
  split.
  - rewrite find_ldscript_file_path_pick. unfold pick. intros Hfind.
    set (name := ld_name w (board st)) in *.
    destruct (FS.exists_ _ _); [left; by simplify_eq|]. right.
    destruct pack as [d|]; [|done]. exists d. split; [done|].
    assert (Hp : p ∈ matches_in_pack w (Some d) "Ldscript/*.ld" name).
    { destruct (matches_in_pack _ _ _ _) as [|q [|q' l]]; simplify_eq.
      apply list_elem_of_singleton. done. }
    apply (matches_in_pack_shape w d _ "Ldscript" "*.ld") in Hp
      as [Hname Hp]; [|done..|].
    + split; [|done]. by apply (fnmatch_star_suffix ".ld").
    + unfold two_layer_glob. by rewrite !glob_returns by done.
  - rewrite find_svd_file_path_pick. unfold pick. intros Hfind.
    set (name := svd_name w (board st)) in *.
    destruct (FS.exists_ _ _); [left; by simplify_eq|]. right.
    destruct pack as [d|]; [|done]. exists d. split; [done|].
    assert (Hp : p ∈ matches_in_pack w (Some d) "SVD/*.svd" name).
    { destruct (matches_in_pack _ _ _ _) as [|q [|q' l]]; simplify_eq.
      apply list_elem_of_singleton. done. }
    apply (matches_in_pack_shape w d _ "SVD" "*.svd") in Hp
      as [Hname Hp]; [|done..|].
    + split; [|done]. by apply (fnmatch_star_suffix ".svd").
    + unfold two_layer_glob. by rewrite !glob_returns by done.
Qed.

Lemma pack_file_location_witness :
  (Sample.pack_dir ++ ["Ldscript"; "HK32F030M.ld"]
   = PurePath.joinpath (project_misc Sample.packed) "HK32F030M.ld"
   ∨ ∃ d, Some Sample.pack_dir = Some d
          ∧ (∃ stem, "HK32F030M.ld" = stem +:+ ".ld")
          ∧ (Sample.pack_dir ++ ["Ldscript"; "HK32F030M.ld"]
             = d ++ ["Ldscript"; "HK32F030M.ld"]
             ∨ ∃ x, Sample.pack_dir ++ ["Ldscript"; "HK32F030M.ld"]
                    = d ++ [x; "Ldscript"; "HK32F030M.ld"]))
  ∧ (["proj"; "misc"; "HK32F030M.svd"]
     = PurePath.joinpath (project_misc Sample.shadowed) "HK32F030M.svd"
     ∨ ∃ d, Some Sample.pack_dir = Some d
            ∧ (∃ stem, "HK32F030M.svd" = stem +:+ ".svd")
            ∧ (["proj"; "misc"; "HK32F030M.svd"] = d ++ ["SVD"; "HK32F030M.svd"]
               ∨ ∃ x, ["proj"; "misc"; "HK32F030M.svd"]
                      = d ++ [x; "SVD"; "HK32F030M.svd"])).
Proof.
  split.
  - exact (proj1 (pack_file_location Sample.packed (Some Sample.pack_dir)
                    (initial_state Sample.packed Sample.env0)
                    (initial_state Sample.packed Sample.env0)
                    (Sample.pack_dir ++ ["Ldscript"; "HK32F030M.ld"]))
             eq_refl).
  - exact (proj2 (pack_file_location Sample.shadowed (Some Sample.pack_dir)
                    (initial_state Sample.shadowed Sample.env0)
                    (initial_state Sample.shadowed Sample.env0)
                    ["proj"; "misc"; "HK32F030M.svd"])
             eq_refl).
Defined.

(** ** The lookup of the startup file and of the system file *)

(** X11: when the file is not in [src] and the board does not allow the pack
    for it, or there is no pack, the lookup returns nothing, searches no
    pack, and writes the line that the file is not in [src] and the warning
    that it was not found. *)
Theorem source_lookup_is_gated (w : World) (pack : option Path) (st : State) :
  let startup_name := get_startup_file_name w (board st) in
  let system_name := get_system_file_name w (board st) in
  (default false (flags (board st) !! "build.use_device_pack_startup") = false
   ∨ pack = None →
   two_layer_glob w (project_src w) startup_name = Returns [] →
   find_startup w pack st
   = (Returns None,
      emit (Stderr "!-> Startup file not found. Ignore this if it's ok.")
        (emit (Stdout ("--> No file " +:+ startup_name +:+ " in src.")) st)))
  ∧ (default false (flags (board st) !! "build.use_device_pack_system") = false
     ∨ pack = None →
     two_layer_glob w (project_src w) system_name = Returns [] →
     find_system w pack st
     = (Returns None,
        emit (Stderr "!-> System file not found. Ignore this if it's ok.")
          (emit (Stdout ("--> No file " +:+ system_name +:+ " in src.")) st))).
Proof.
  intros startup_name system_name. split.
  - intros Hgate Hsrc. unfold find_startup. rewrite bind_unfold.
    cbn [get_board]. fold startup_name. rewrite bind_unfold.
    rewrite (find_source_file_in_src_missing _ _ _ Hsrc).
    cbn [negb]. rewrite bind_unfold. cbn [get_board emit board].
    destruct Hgate as [-> | ->]; [done|].
    by destruct (default false _).
  - intros Hgate Hsrc. unfold find_system. rewrite bind_unfold.
    cbn [get_board]. fold system_name. rewrite bind_unfold.
    rewrite (find_source_file_in_src_missing _ _ _ Hsrc).
    cbn [negb]. rewrite bind_unfold. cbn [get_board emit board].
    destruct Hgate as [-> | ->]; [done|].
    by destruct (default false _).
Qed.

Lemma source_lookup_is_gated_witness :
  two_layer_glob Sample.gated Sample.pack_dir "Startup/startup_HK32F030M.[sS]"
  = Returns [Sample.pack_dir ++ ["Startup"; "startup_HK32F030M.S"]]
  ∧ find_startup Sample.gated (Some Sample.pack_dir)
      (initial_state Sample.gated Sample.env0)
    = (Returns None,
       emit (Stderr "!-> Startup file not found. Ignore this if it's ok.")
         (emit (Stdout "--> No file startup_HK32F030M.[sS] in src.")
            (initial_state Sample.gated Sample.env0)))
  ∧ find_system Sample.packed None (initial_state Sample.packed Sample.env0)
    = (Returns None,
       emit (Stderr "!-> System file not found. Ignore this if it's ok.")
         (emit (Stdout "--> No file system_HK32F030M.c in src.")
            (initial_state Sample.packed Sample.env0))).
Proof.
  split; [reflexivity|]. split.
  - exact (proj1 (source_lookup_is_gated Sample.gated (Some Sample.pack_dir)
                    (initial_state Sample.gated Sample.env0))
             (or_introl eq_refl) eq_refl).
  - exact (proj2 (source_lookup_is_gated Sample.packed None
                    (initial_state Sample.packed Sample.env0))
             (or_intror eq_refl) eq_refl).
Defined.

(** X12: when the file is not in [src], the board allows the pack for it and
    the two-layer glob of its folder in the pack finds one file, the lookup
    returns that file and prints that it is not in [src] and that it was
    found in the pack. *)
Theorem source_found_in_pack (w : World) (d p : Path) (st : State) :
  let startup_name := get_startup_file_name w (board st) in
  let system_name := get_system_file_name w (board st) in
  (flags (board st) !! "build.use_device_pack_startup" = Some true →
   two_layer_glob w (project_src w) startup_name = Returns [] →
   two_layer_glob w d ("Startup" +:+ "/" +:+ startup_name) = Returns [p] →
   find_startup w (Some d) st
   = (Returns (Some p),
      emit (Stdout ("--> Found source file " +:+ startup_name
                    +:+ " in device pack."))
        (emit (Stdout ("--> No file " +:+ startup_name +:+ " in src.")) st)))
  ∧ (flags (board st) !! "build.use_device_pack_system" = Some true →
     two_layer_glob w (project_src w) system_name = Returns [] →
     two_layer_glob w d ("SystemSource" +:+ "/" +:+ system_name) = Returns [p] →
     find_system w (Some d) st
     = (Returns (Some p),
        emit (Stdout ("--> Found source file " +:+ system_name
                      +:+ " in device pack."))
          (emit (Stdout ("--> No file " +:+ system_name +:+ " in src.")) st))).
Proof.
  intros startup_name system_name. split.
  - intros Hflag Hsrc Hpack. unfold find_startup. rewrite bind_unfold.
    cbn [get_board]. fold startup_name. rewrite bind_unfold.
    rewrite (find_source_file_in_src_missing _ _ _ Hsrc).
    cbn [negb]. rewrite bind_unfold. cbn [get_board emit board].
    rewrite Hflag. cbn [default from_option].
    by rewrite (find_source_file_in_device_pack_count _ _ _ _ _ _ Hpack).
  - intros Hflag Hsrc Hpack. unfold find_system. rewrite bind_unfold.
    cbn [get_board]. fold system_name. rewrite bind_unfold.
    rewrite (find_source_file_in_src_missing _ _ _ Hsrc).
    cbn [negb]. rewrite bind_unfold. cbn [get_board emit board].
    rewrite Hflag. cbn [default from_option].
    by rewrite (find_source_file_in_device_pack_count _ _ _ _ _ _ Hpack).
Qed.

Lemma source_found_in_pack_witness :
  find_startup Sample.packed (Some Sample.pack_dir)
    (initial_state Sample.packed Sample.env0)
  = (Returns (Some (Sample.pack_dir ++ ["Startup"; "startup_HK32F030M.S"])),
     emit (Stdout "--> Found source file startup_HK32F030M.[sS] in device pack.")
       (emit (Stdout "--> No file startup_HK32F030M.[sS] in src.")
          (initial_state Sample.packed Sample.env0)))
  ∧ find_system Sample.lone (Some Sample.pack_dir)
      (initial_state Sample.lone Sample.env0)
    = (Returns (Some (Sample.pack_dir ++ ["v2"; "SystemSource"; "system_HK32F030M.c"])),
       emit (Stdout "--> Found source file system_HK32F030M.c in device pack.")
         (emit (Stdout "--> No file system_HK32F030M.c in src.")
            (initial_state Sample.lone Sample.env0))).
Proof.
  split.
  - exact (proj1 (source_found_in_pack Sample.packed Sample.pack_dir
                    (Sample.pack_dir ++ ["Startup"; "startup_HK32F030M.S"])
                    (initial_state Sample.packed Sample.env0))
             eq_refl eq_refl eq_refl).
  - exact (proj2 (source_found_in_pack Sample.lone Sample.pack_dir
                    (Sample.pack_dir ++ ["v2"; "SystemSource"; "system_HK32F030M.c"])
                    (initial_state Sample.lone Sample.env0))
             eq_refl eq_refl eq_refl).
Defined.

(** ** The linker script, when the pack has several *)

(** X13: two or more linker scripts of the name in the pack, and none in
    [misc], end the run as a missing linker script does: with the
    [ValueError], the environment untouched. *)
Theorem ambiguous_ldscript_is_fatal (w : World) (d : Path) (st : State) :
  let name := ld_name w (board st) in
  FS.exists_ (fs w) (PurePath.joinpath (project_misc w) name) = false →
  2 ≤ length (matches_in_pack w (Some d) "Ldscript/*.ld" name) →
  set_ldscript w (Some d) st
  = (Raises (ValueError "No ldscript file or wrong naming."),
     emit (Stderr "!-> Ldscript file not found.") st).
Proof.
  intros name Hmisc Hlen. rewrite set_ldscript_pick. fold name.
  by rewrite pick_ambiguous.
Qed.

Lemma ambiguous_ldscript_is_fatal_witness :
  set_ldscript Sample.twofold (Some Sample.pack_dir)
    (initial_state Sample.twofold Sample.env0)
  = (Raises (ValueError "No ldscript file or wrong naming."),
     emit (Stderr "!-> Ldscript file not found.")
       (initial_state Sample.twofold Sample.env0)).
Proof.
  apply (ambiguous_ldscript_is_fatal Sample.twofold Sample.pack_dir
           (initial_state Sample.twofold Sample.env0));
    [reflexivity | vm_compute; lia].
Defined.

(** ** The path of a source relative to the pack *)

Lemma split_on_append_separator (sep : ascii) (x rest : string) :
  Str.contains sep x = false →
  Str.split_on sep (x +:+ String sep rest) = x :: Str.split_on sep rest.
Proof.
  induction x as [|c x IH].
  - intros _. change ("" +:+ String sep rest) with (String sep rest).
    cbn [Str.split_on]. by rewrite Ascii.eqb_refl.
  - cbn [Str.contains]. intros [Hc Hx]%orb_false_iff.
    change (String c x +:+ String sep rest)
      with (String c (x +:+ String sep rest)).
    cbn [Str.split_on]. rewrite Ascii.eqb_sym, Hc, (IH Hx). done.
Qed.

Lemma split_on_join (rel : list string) :
  rel ≠ [] → Forall path_component rel →
  Str.split_on "/" (Str.join "/" rel) = rel.
Proof.
  intros Hne Hrel. induction Hrel as [|c rel (_ & _ & Hc) Hrel IH]; [done|].
  destruct rel as [|c' rel].
  - by apply split_on_without_separator.
  - change (Str.join "/" (c :: c' :: rel))
      with (c +:+ String "/" (Str.join "/" (c' :: rel))).
    rewrite split_on_append_separator by done. by rewrite IH.
Qed.

Lemma parse_parts_join (rel : list string) :
  rel ≠ [] → Forall path_component rel →
  PurePath.parse_parts (Str.join "/" rel) = rel.
Proof.
  intros Hne Hrel. unfold PurePath.parse_parts.
  rewrite split_on_join by done. clear Hne.
  induction Hrel as [|c rel (Hc & Hc' & _) Hrel IH]; [done|].
  by rewrite filter_cons, decide_True, IH.
Qed.

Lemma join_is_relative (rel : list string) :
  Forall path_component rel → PurePath.is_absolute (Str.join "/" rel) = false.
Proof.
  intros Hrel. destruct Hrel as [|c rel (Hc & _ & Hsep) Hrel]; [done|].
  assert (Hfirst : PurePath.is_absolute c = false).
  { destruct c as [|a c]; [done|]. cbn [Str.contains PurePath.is_absolute] in *.
    rewrite Ascii.eqb_sym. by destruct (Ascii.eqb "/" a). }
  destruct rel as [|c' rel]; [done|].
  change (Str.join "/" (c :: c' :: rel))
    with (c +:+ String "/" (Str.join "/" (c' :: rel))).
  by destruct c.
Qed.

(** X14: for a file that resolves to a path below the resolved pack,
    [get_relative_path_to_device_pack] returns a relative path that, joined
    to the resolved pack, is the resolved file again. *)
Theorem relative_path_round_trip
    (w : World) (d file rel : Path) (st : State) :
  resolve w d ≠ [] → rel ≠ [] → Forall path_component rel →
  resolve w file = resolve w d ++ rel →
  ∃ relative_path,
    get_relative_path_to_device_pack w (Some d) file st
    = (Returns relative_path, st)
    ∧ PurePath.is_absolute relative_path = false
    ∧ PurePath.joinpath (resolve w d) relative_path = resolve w file.
Proof.
  intros Hd Hne Hrel Hfile. exists (Str.join "/" rel).
  split; [|split].
  - cbn [get_relative_path_to_device_pack mret M_ret].
    by rewrite Hfile, relative_path_below.
  - by apply join_is_relative.
  - unfold PurePath.joinpath.
    by rewrite join_is_relative, parse_parts_join, Hfile.
Qed.

Lemma relative_path_round_trip_witness :
  get_relative_path_to_device_pack Sample.packed (Some Sample.pack_dir)
    (Sample.pack_dir ++ ["Startup"; "startup_HK32F030M.S"])
    (initial_state Sample.packed Sample.env0)
  = (Returns "Startup/startup_HK32F030M.S",
     initial_state Sample.packed Sample.env0)
  ∧ PurePath.joinpath Sample.pack_dir "Startup/startup_HK32F030M.S"
    = Sample.pack_dir ++ ["Startup"; "startup_HK32F030M.S"].
Proof.
  destruct (relative_path_round_trip Sample.packed Sample.pack_dir
              (Sample.pack_dir ++ ["Startup"; "startup_HK32F030M.S"])
              ["Startup"; "startup_HK32F030M.S"]
              (initial_state Sample.packed Sample.env0))
    as (relative_path & Hrun & _ & Hjoin);
    [discriminate | discriminate | | reflexivity |].
  - repeat constructor; discriminate.
  - injection Hrun as <-. split; [reflexivity | exact Hjoin].
Defined.

(** ** Witnesses of the runs and of the names *)

Lemma missing_product_line_aborts_witness :
  run Sample.nameless Sample.env0
  = (Raises (AssertionError "Missing MCU or Product Line field"),
     initial_state Sample.nameless Sample.env0).
Proof.
  exact (missing_product_line_aborts Sample.nameless
           (initial_state Sample.nameless Sample.env0) (or_introl eq_refl)).
Defined.

Lemma script_ldscript_path_witness :
  run Sample.bare Sample.env0
  = (Raises (ValueError "No ldscript file or wrong naming."),
     emit (Stderr "!-> Ldscript file not found.")
       (locate_pack Sample.bare
          (with_board (update_list "frameworks" [])
             (initial_state Sample.bare Sample.env0))).2)
  ∧ LDSCRIPT_PATH (env (run Sample.packed Sample.env0).2)
    = Some "/proj/lib/device_path_HK32F030M/Ldscript/HK32F030M.ld".
Proof.
  split.
  - exact (proj1 (proj1 (script_ldscript_path Sample.bare
                           (initial_state Sample.bare Sample.env0)
                           (locate_pack Sample.bare
                              (with_board (update_list "frameworks" [])
                                 (initial_state Sample.bare Sample.env0))).2
                           None ltac:(discriminate) eq_refl)
                   eq_refl eq_refl)).
  - exact (proj2 (script_ldscript_path Sample.packed
                    (initial_state Sample.packed Sample.env0)
                    (locate_pack Sample.packed
                       (with_board (update_list "frameworks" [])
                          (initial_state Sample.packed Sample.env0))).2
                    (Some Sample.pack_dir) ltac:(discriminate) eq_refl)
             (Sample.pack_dir ++ ["Ldscript"; "HK32F030M.ld"])
             (or_intror (conj eq_refl eq_refl))).
Defined.

Lemma script_board_witness :
  board (run Sample.shadowed Sample.env0).2
  = update_str "debug.svd_path" "/proj/misc/HK32F030M.svd"
      (update_list "frameworks" [] Sample.board_pack).
Proof.
  destruct (script_board Sample.shadowed
              (initial_state Sample.shadowed Sample.env0)
              (locate_pack Sample.shadowed
                 (with_board (update_list "frameworks" [])
                    (initial_state Sample.shadowed Sample.env0))).2
              (set_ldscript Sample.shadowed (Some Sample.pack_dir)
                 (locate_pack Sample.shadowed
                    (with_board (update_list "frameworks" [])
                       (initial_state Sample.shadowed Sample.env0))).2).2
              (Some Sample.pack_dir) ltac:(discriminate) eq_refl eq_refl)
    as (found & Hfind & Hboard).
  assert (found = Some ["proj"; "misc"; "HK32F030M.svd"]) as ->.
  { rewrite find_svd_file_path_pick in Hfind. by injection Hfind as <-. }
  exact Hboard.
Defined.

(** X17: without [build.startup_file] in the manifest, and for a product
    line without wildcard character, the name the startup file is looked up
    by matches the file [startup_<product_line>.s], the file
    [startup_<product_line>.S] and no other. *)
Theorem default_startup_name_matches (w : World) (b : Board) (file : string) :
  strs b !! "build.startup_file" = None →
  FS.is_wildcard_pattern (product_line w) = false →
  Fnmatch.fnmatch (get_startup_file_name w b) file = true
  ↔ file = "startup_" +:+ product_line w +:+ ".s"
    ∨ file = "startup_" +:+ product_line w +:+ ".S".
Proof.
  intros Hname Hpl. unfold get_startup_file_name. rewrite Hname.
  by apply startup_pattern_matches.
Qed.

Lemma default_startup_name_matches_witness :
  Fnmatch.fnmatch (get_startup_file_name Sample.packed Sample.board_pack)
    "startup_HK32F030M.S" = true.
Proof.
  exact (proj2 (default_startup_name_matches Sample.packed Sample.board_pack
                  "startup_HK32F030M.S" eq_refl eq_refl)
           (or_intror eq_refl)).
Defined.

Lemma linkflags_appended_once_witness :
  LINKFLAGS (env (run Sample.packed Sample.env0).2)
  = ["--specs=nano.specs"; "--specs=nosys.specs"].
Proof.
  exact (proj2 (linkflags_appended_once Sample.packed
                  (initial_state Sample.packed Sample.env0))
           eq_refl).
Defined.


(** ** The sources of the pack over a whole run *)

(** The script is its part up to the lookups of sources, then the lookups
    and the two registrations. *)
Lemma script_split (w : World) (st0 : State) :
  script w st0 = (pack ← until_sources w; after_linkflags w pack) st0.
Proof.
  unfold script, until_sources, after_linkflags.
  rewrite !bind_unfold.
  destruct (assert _ _ st0) as [[[]|e] s1]; [|done].
  rewrite !bind_unfold.
  destruct (do_not_support_any_framework s1) as [[[]|e] s2]; [|done].
  rewrite !bind_unfold.
  destruct (locate_pack w s2) as [[pack|e] s3]; [|done].
  rewrite !bind_unfold.
  destruct (set_ldscript w pack s3) as [[[]|e] s4]; [|done].
  rewrite !bind_unfold.
  destruct (set_svd_path w pack s4) as [[[]|e] s5]; [|done].
  rewrite !bind_unfold.
  destruct (add_header_path pack s5) as [[[]|e] s6]; [|done].
  rewrite !bind_unfold.
  destruct (Append_LINKFLAGS _ s6) as [[[]|e] s7]; [|done].
  reflexivity.
Qed.

Lemma until_sources_preserves_build_sources (w : World) :
  preserves (λ st, BUILD_SOURCES (env st)) (until_sources w).
Proof.
  unfold until_sources, do_not_support_any_framework, board_update_list.
  unfold_script. preserve.
Qed.

Lemma find_startup_preserves_env (w : World) (pack : option Path) :
  preserves env (find_startup w pack).
Proof. unfold_script. preserve. Qed.

Lemma find_system_preserves_env (w : World) (pack : option Path) :
  preserves env (find_system w pack).
Proof. unfold_script. preserve. Qed.

(** C9: in a run whose lookups of the startup file and of the system file
    return, the script returns, and the calls of [BuildSources] it has added
    at the end are one for each file a lookup returned, in that order, and no
    other: each into [$BUILD_DIR/SourceInDevicePack], from the resolved pack,
    with the filter [-<*>] followed by [+<...>] of the resolved file with the
    prefix of the resolved pack removed. A file that a lookup returns comes
    with a pack, and the included path is the path of the file relative to
    the pack when the file resolves to a path below the resolved pack. *)
Theorem pack_source_is_built_alone
    (w : World) (st0 st1 st2 st3 : State)
    (pack startup_path system_path : option Path) :
  until_sources w st0 = (Returns pack, st1) →
  find_startup w pack st1 = (Returns startup_path, st2) →
  find_system w pack st2 = (Returns system_path, st3) →
  let calls (path : option Path) :=
    match pack, path with
    | Some pack_dir, Some file_path => [pack_source_call w pack_dir file_path]
    | _, _ => []
    end in
  (script w st0).1 = Returns tt
  ∧ BUILD_SOURCES (env (script w st0).2)
    = BUILD_SOURCES (env st0) ++ calls startup_path ++ calls system_path
  ∧ (is_Some startup_path ∨ is_Some system_path → is_Some pack)
  ∧ (∀ pack_dir file_path rel,
       resolve w pack_dir ≠ [] → rel ≠ [] →
       resolve w file_path = resolve w pack_dir ++ rel →
       pack_source_call w pack_dir file_path
       = ("$BUILD_DIR/SourceInDevicePack",
          PurePath.as_posix (resolve w pack_dir),
          ["-<*>"; "+<" +:+ Str.join "/" rel +:+ ">"])).
Proof.
  intros Huntil Hstartup Hsystem calls.
  assert (Hpack : is_Some startup_path ∨ is_Some system_path → is_Some pack).
  { intros [[file ->] | [file ->]];
      [by eapply find_startup_some | by eapply find_system_some]. }
  assert (Hsources : BUILD_SOURCES (env st3) = BUILD_SOURCES (env st0)).
  { pose proof (until_sources_preserves_build_sources w st0) as H1.
    pose proof (find_startup_preserves_env w pack st1) as H2.
    pose proof (find_system_preserves_env w pack st2) as H3.
    rewrite Huntil in H1. rewrite Hstartup in H2. rewrite Hsystem in H3.
    cbn [snd] in *. by rewrite H3, H2. }
  rewrite script_split, bind_unfold, Huntil. unfold after_linkflags.
  rewrite bind_unfold, Hstartup, bind_unfold, Hsystem. rewrite <- Hsources.
  split; [|split; [|split; [exact Hpack|]]].
  - destruct startup_path as [f1|], system_path as [f2|], pack as [d|];
      try done;
      destruct Hpack as [? ?];
      first [done | left; by eexists | right; by eexists].
  - subst calls.
    destruct startup_path as [f1|], system_path as [f2|], pack as [d|];
      try (destruct Hpack as [? ?];
           first [done | left; by eexists | right; by eexists]);
      unfold pack_source_call, build_if_found,
        build_source_file_in_device_pack, get_relative_path_to_device_pack,
        BuildSources, modify, mbind, M_bind, mret, M_ret;
      cbn [with_env env BUILD_SOURCES fst snd];
      by rewrite ?app_nil_r, <- ?app_assoc.
  - intros pack_dir file_path rel Hd Hrel Hfile. unfold pack_source_call.
    by rewrite Hfile, relative_path_below.
Qed.

Lemma pack_source_is_built_alone_witness :
  (run Sample.packed Sample.env0).1 = Returns tt
  ∧ BUILD_SOURCES (env (run Sample.packed Sample.env0).2)
    = [("$BUILD_DIR/SourceInDevicePack", "/proj/lib/device_path_HK32F030M",
        ["-<*>"; "+<Startup/startup_HK32F030M.S>"])].
Proof.
  unfold run.
  destruct (pack_source_is_built_alone Sample.packed
              (initial_state Sample.packed Sample.env0)
              (until_sources Sample.packed
                 (initial_state Sample.packed Sample.env0)).2
              (find_startup Sample.packed (Some Sample.pack_dir)
                 (until_sources Sample.packed
                    (initial_state Sample.packed Sample.env0)).2).2
              (find_system Sample.packed (Some Sample.pack_dir)
                 (find_startup Sample.packed (Some Sample.pack_dir)
                    (until_sources Sample.packed
                       (initial_state Sample.packed Sample.env0)).2).2).2
              (Some Sample.pack_dir)
              (Some (Sample.pack_dir ++ ["Startup"; "startup_HK32F030M.S"]))
              None
              ltac:(vm_compute; reflexivity)
              ltac:(vm_compute; reflexivity)
              ltac:(vm_compute; reflexivity))
    as (Hreturns & Hsources & _ & Hrel).
  split; [exact Hreturns|].
  rewrite Hsources.
  rewrite (Hrel Sample.pack_dir
             (Sample.pack_dir ++ ["Startup"; "startup_HK32F030M.S"])
             ["Startup"; "startup_HK32F030M.S"]
             ltac:(discriminate) ltac:(discriminate) eq_refl).
  vm_compute. reflexivity.
Defined.
